(** * Omega metadata registries (components/omega/src/infra/MetaData.{h,cpp})

    A shallow embedding of the three metadata classes of Omega:
    [MetaDim] (dimensions), [MetaData] (field metadata records) and
    [MetaGroup] (groups of field names), together with the three static
    maps [AllDims], [AllFields] and [AllGroups] that own their instances.

    The C++ code hands out [std::shared_ptr]s.  Objects therefore live in
    a store indexed by addresses, the static maps hold (nullable) addresses,
    and two shared pointers compare equal exactly when they hold the same
    address.  [LOG_ERROR] appends to an error log that is part of the
    state, so that the failure modes of the code, which mostly share a
    return value, can be told apart. *)

From Stdlib Require Import ZArith String List Lia.
From Stdlib Require Import Floats.SpecFloat.
From stdpp Require Import base option gmap sets list strings fin_maps.

Open Scope Z_scope.
Open Scope string_scope.

(** ** Basic types (DataTypes.h) *)

(** [I4], [I8] are the 32 and 64 bit signed integers, [R4], [R8] the
    single and double precision floats.  The metadata code only stores,
    copies and compares such values, it never computes with them. *)
Abbreviation I4 := Z (only parsing).
Abbreviation I8 := Z (only parsing).
Abbreviation R4 := spec_float (only parsing).
Abbreviation R8 := spec_float (only parsing).
Abbreviation int := Z (only parsing).

(** Conversion of an unsigned size to [int]: reduction modulo 2^32 into
    the signed range. *)
Definition to_int (z : Z) : int := (z + 2 ^ 31) mod 2 ^ 32 - 2 ^ 31.

(** ** [std::any] restricted to what the metadata code can tell apart *)

Inductive Any :=
| AnyEmpty                     (* std::any{} : holds nothing *)
| AnyI4 (v : I4)
| AnyI8 (v : I8)
| AnyR4 (v : R4)
| AnyR8 (v : R8)
| AnyBool (v : bool)
| AnyString (v : string)
| AnyOther (type_name : string). (* a value of any other type *)

(** The six types for which [getEntry] is overloaded. *)
Inductive Kind := KI4 | KI8 | KR4 | KR8 | KBool | KString.

Global Instance Kind_eq_dec : EqDecision Kind.
Proof. solve_decision. Defined.

Definition ctype (k : Kind) : Type :=
  match k with
  | KI4 => I4 | KI8 => I8 | KR4 => R4 | KR8 => R8
  | KBool => bool | KString => string
  end.

(** Construction of a [std::any] from a value of a supported type. *)
Definition make_any (k : Kind) : ctype k -> Any :=
  match k with
  | KI4 => AnyI4 | KI8 => AnyI8 | KR4 => AnyR4 | KR8 => AnyR8
  | KBool => AnyBool | KString => AnyString
  end.

(** [std::any_cast<T>(a)]: the stored value when [a] holds exactly a [T],
    [None] (the cast throws [std::bad_any_cast]) otherwise. *)
Definition any_cast (k : Kind) : Any -> option (ctype k) :=
  match k return Any -> option (ctype k) with
  | KI4 => fun a => match a with AnyI4 v => Some v | _ => None end
  | KI8 => fun a => match a with AnyI8 v => Some v | _ => None end
  | KR4 => fun a => match a with AnyR4 v => Some v | _ => None end
  | KR8 => fun a => match a with AnyR8 v => Some v | _ => None end
  | KBool => fun a => match a with AnyBool v => Some v | _ => None end
  | KString => fun a => match a with AnyString v => Some v | _ => None end
  end.

(** ** Objects *)

(** Address of an object created by [std::make_shared]. *)
Abbreviation addr := positive (only parsing).

(** A [std::shared_ptr<T>]: [None] is [nullptr]. *)
Abbreviation shared_ptr := (option positive) (only parsing).

Record DimObject := mkDim {
  DimName : string;
  Length : I4
}.

Record DataObject := mkData {
  FieldName : string;
  MetaMap : gmap string Any;
  NDims : int;
  DimNames : list string
}.

Record GroupObject := mkGroup {
  GrpName : string;
  Fields : gset string
}.

(** Value initialisation, as done by [std::make_shared<T>()] for a class
    without user-provided constructor: scalars are zeroed, containers and
    strings are empty. *)
Definition DimObject_init : DimObject := mkDim "" 0.
Definition DataObject_init : DataObject := mkData "" ∅ 0 [].
Definition GroupObject_init : GroupObject := mkGroup "" ∅.

(** ** Error log: one constructor per [LOG_ERROR] call of MetaData.cpp *)

Inductive LogMsg :=
| FieldAlreadyExists (Name : string)          (* MetaData::create(Name) *)
| FieldCreateFailed (Name : string)           (* the two other create forms *)
| FieldDestroyMissing (Name : string)         (* MetaData::destroy *)
| FieldEraseUnknown (Name : string)
| FieldGetMissing (Name : string)             (* MetaData::get *)
| EntryAlreadyExists (Name Field : string)    (* MetaData::addEntry *)
| EntryRemoveMissing (Name Field : string)    (* MetaData::removeEntry *)
| EntryEraseUnknown (Name Field : string)
| EntryGetMissing (Name Field : string)       (* MetaData::getEntry *)
| DimLengthConflict (Name : string)           (* MetaDim::create *)
| DimDestroyMissing (Name : string)           (* MetaDim::destroy *)
| DimEraseUnknown (Name : string)
| DimGetMissing (Name : string)               (* MetaDim::get *)
| DimLengthMissing (Name : string)            (* MetaDim::getDimLength *)
| GroupAlreadyExists (Name : string)          (* MetaGroup::create *)
| GroupDestroyMissing (Name : string)         (* MetaGroup::destroy *)
| GroupEraseUnknown (Name : string)
| GroupGetMissing (Name : string)             (* MetaGroup::get *)
| GroupAddUndefinedField (Name Group : string)   (* MetaGroup::addField *)
| GroupGetNotMember (Name Group : string)     (* MetaGroup::getField *)
| GroupRemoveNotMember (Name Group : string)  (* MetaGroup::removeField *)
| GroupEraseFieldUnknown (Name Group : string).

(** ** Program state *)

Record World := mkWorld {
  DimStore : gmap addr DimObject;
  DataStore : gmap addr DataObject;
  GroupStore : gmap addr GroupObject;
  AllDims : gmap string shared_ptr;      (* MetaDim::AllDims *)
  AllFields : gmap string shared_ptr;    (* MetaData::AllFields *)
  AllGroups : gmap string shared_ptr;    (* MetaGroup::AllGroups *)
  ErrLog : list LogMsg                   (* most recent message first *)
}.

(** The state at program start: the static maps are empty. *)
Definition World_init : World := mkWorld ∅ ∅ ∅ ∅ ∅ ∅ [].

(** ** Outcomes and the state monad of the embedding *)

Inductive Exception := bad_any_cast.
Inductive UB := NullDeref | DanglingDeref | OutOfBounds.

Inductive Outcome (A : Type) :=
| Ret (a : A)                 (* normal return *)
| Throws (e : Exception)      (* a C++ exception leaves the function *)
| Undefined (u : UB).         (* undefined behaviour *)
Arguments Ret {A} a.
Arguments Throws {A} e.
Arguments Undefined {A} u.

Definition M (A : Type) : Type := World -> Outcome A * World.

Definition ret {A} (a : A) : M A := fun w => (Ret a, w).

Definition bind {A B} (m : M A) (f : A -> M B) : M B :=
  fun w =>
    match m w with
    | (Ret a, w') => f a w'
    | (Throws e, w') => (Throws e, w')
    | (Undefined u, w') => (Undefined u, w')
    end.

Definition throw {A} (e : Exception) : M A := fun w => (Throws e, w).
Definition undefined {A} (u : UB) : M A := fun w => (Undefined u, w).

Declare Scope cpp_scope.
Delimit Scope cpp_scope with cpp.
Notation "'let*' x := c 'in' k" := (bind c (fun x => k))
  (at level 10, x pattern, c at level 100, k at level 200) : cpp_scope.
Notation "c ;; k" := (bind c (fun _ => k))
  (at level 100, k at level 200, right associativity) : cpp_scope.
Open Scope cpp_scope.

Definition gets {A} (f : World -> A) : M A := fun w => (Ret (f w), w).
Definition modify (f : World -> World) : M unit := fun w => (Ret tt, f w).

(** The state with one more message in the log. *)
Definition add_log (msg : LogMsg) (w : World) : World :=
  mkWorld (DimStore w) (DataStore w) (GroupStore w)
          (AllDims w) (AllFields w) (AllGroups w) (msg :: ErrLog w).

Definition LOG_ERROR (msg : LogMsg) : M unit := modify (add_log msg).

(** Setters for the components of the state. *)
Definition set_DimStore (h : gmap addr DimObject) (w : World) : World :=
  mkWorld h (DataStore w) (GroupStore w) (AllDims w) (AllFields w)
          (AllGroups w) (ErrLog w).
Definition set_DataStore (h : gmap addr DataObject) (w : World) : World :=
  mkWorld (DimStore w) h (GroupStore w) (AllDims w) (AllFields w)
          (AllGroups w) (ErrLog w).
Definition set_GroupStore (h : gmap addr GroupObject) (w : World) : World :=
  mkWorld (DimStore w) (DataStore w) h (AllDims w) (AllFields w)
          (AllGroups w) (ErrLog w).
Definition set_AllDims (m : gmap string shared_ptr) (w : World) : World :=
  mkWorld (DimStore w) (DataStore w) (GroupStore w) m (AllFields w)
          (AllGroups w) (ErrLog w).
Definition set_AllFields (m : gmap string shared_ptr) (w : World) : World :=
  mkWorld (DimStore w) (DataStore w) (GroupStore w) (AllDims w) m
          (AllGroups w) (ErrLog w).
Definition set_AllGroups (m : gmap string shared_ptr) (w : World) : World :=
  mkWorld (DimStore w) (DataStore w) (GroupStore w) (AllDims w) (AllFields w)
          m (ErrLog w).

(** ** Container operations of the C++ standard library *)

(** [m.find(k) != m.end()] *)
Definition map_contains {V} (k : string) (m : gmap string V) : bool :=
  bool_decide (is_Some (m !! k)).

(** [m.erase(k)]: the number of elements removed and the new map. *)
Definition map_erase {V} (k : string) (m : gmap string V) : Z * gmap string V :=
  (if map_contains k m then 1 else 0, delete k m).

(** [m[k]]: the mapped value; a missing key is first inserted with a
    value-initialised mapped value [dflt]. *)
Definition map_at {V} (dflt : V) (k : string) (m : gmap string V)
  : V * gmap string V :=
  match m !! k with
  | Some v => (v, m)
  | None => (dflt, <[k := dflt]> m)
  end.

(** [s.erase(k)] on a [std::set]. *)
Definition set_erase (k : string) (s : gset string) : Z * gset string :=
  (if bool_decide (k ∈ s) then 1 else 0, s ∖ {[k]}).

(** [std::make_shared<T>()]: a value-initialised object at an address not
    in use. *)
Definition new_addr {T} (h : gmap addr T) : addr := fresh (dom h).

(** ** Shared pointers into the object stores

    [std::make_shared<T>], [->] and the assignment through a pointer are
    the same for the three classes; [Managed T] says which store holds the
    objects of class [T]. *)

Class Managed (T : Type) := {
  store : World -> gmap addr T;
  set_store : gmap addr T -> World -> World;
  value_init : T
}.

Global Instance Managed_Dim : Managed DimObject :=
  {| store := DimStore; set_store := set_DimStore;
     value_init := DimObject_init |}.
Global Instance Managed_Data : Managed DataObject :=
  {| store := DataStore; set_store := set_DataStore;
     value_init := DataObject_init |}.
Global Instance Managed_Group : Managed GroupObject :=
  {| store := GroupStore; set_store := set_GroupStore;
     value_init := GroupObject_init |}.

(** [std::make_shared<T>()] *)
Definition make_shared (T : Type) `{Managed T} : M shared_ptr :=
  fun w =>
    let a := new_addr (store w) in
    (Ret (Some a), set_store (<[a := value_init]> (store w)) w).

(** [*p]: reading through a null pointer is undefined. *)
Definition deref (T : Type) `{Managed T} (p : shared_ptr) : M T :=
  fun w =>
    match p with
    | None => (Undefined NullDeref, w)
    | Some a =>
        match store w !! a with
        | Some o => (Ret o, w)
        | None => (Undefined DanglingDeref, w)
        end
    end.

(** [p->member = ...]: the object [o] that [p] points to becomes [f o]. *)
Definition update (T : Type) `{Managed T} (p : shared_ptr) (f : T -> T)
  : M unit :=
  fun w =>
    match p with
    | None => (Undefined NullDeref, w)
    | Some a =>
        match store w !! a with
        | Some o => (Ret tt, set_store (<[a := f o]> (store w)) w)
        | None => (Undefined DanglingDeref, w)
        end
    end.

(** The last shared pointer to an object goes away: the object is
    destroyed.  Used only where the code itself holds the one and only
    reference.  When a static map drops its pointer ([erase], [clear]) the
    object is kept in the store, since callers may still own it; an object
    that nobody owns cannot be observed. *)
Definition release (T : Type) `{Managed T} (p : shared_ptr) : M unit :=
  fun w =>
    match p with
    | None => (Ret tt, w)
    | Some a => (Ret tt, set_store (delete a (store w)) w)
    end.

(** ** class MetaDim *)

Module MetaDim.

(** [AllDims.find(Name) != AllDims.end()] *)
Definition has (Name : string) : M bool :=
  gets (fun w => map_contains Name (AllDims w)).

(** [AllDims[Name]] as an rvalue *)
Definition AllDims_at (Name : string) : M shared_ptr :=
  fun w =>
    let (p, m) := map_at None Name (AllDims w) in
    (Ret p, set_AllDims m w).

(** [AllDims[Name] = Dim] *)
Definition AllDims_assign (Name : string) (Dim : shared_ptr) : M unit :=
  modify (fun w => set_AllDims (<[Name := Dim]> (AllDims w)) w).

Definition get (Name : string) : M shared_ptr :=
  let* b := has Name in
  if negb b then
    LOG_ERROR (DimGetMissing Name) ;;
    ret None
  else
    AllDims_at Name.

Definition create (Name : string) (Length_ : I4) : M shared_ptr :=
  let* Dim := make_shared DimObject in      (* create empty dim *)
  let* b := has Name in
  if b then
    (* Dim = get(Name): the empty dim loses its only owner *)
    let* Dim' := get Name in
    release DimObject Dim ;;
    let* d := deref DimObject Dim' in
    if negb (Length d =? Length_)%Z then
      LOG_ERROR (DimLengthConflict Name) ;;
      ret None
    else
      ret Dim'
  else
    update DimObject Dim (fun d => mkDim Name (Length d)) ;;
    update DimObject Dim (fun d => mkDim (DimName d) Length_) ;;
    AllDims_assign Name Dim ;;
    ret Dim.

Definition destroy (Name : string) : M int :=
  let* b := has Name in
  if negb b then
    LOG_ERROR (DimDestroyMissing Name) ;;
    ret (-1)
  else
    let* n := (fun w => let (n, m) := map_erase Name (AllDims w) in
                        (Ret n, set_AllDims m w)) in
    if negb (n =? 1)%Z then
      LOG_ERROR (DimEraseUnknown Name) ;;
      ret (-1)
    else
      ret 0.

Definition clear : M unit := modify (set_AllDims ∅).

Definition getLength (this : shared_ptr) : M I4 :=
  let* d := deref DimObject this in
  ret (Length d).

Definition getDimLength (Name : string) : M I4 :=
  let* b := has Name in
  if b then
    let* ThisDim := AllDims_at Name in
    let* d := deref DimObject ThisDim in
    ret (Length d)
  else
    LOG_ERROR (DimLengthMissing Name) ;;
    ret (-1).

(** [return AllDims.size();] with the conversion from [size_t] to [int] *)
Definition getNumDefinedDims : M int :=
  gets (fun w => to_int (Z.of_nat (size (AllDims w)))).

End MetaDim.

(** ** class MetaData *)

(** [std::vector::resize(n)]: truncate, or pad with empty strings. *)
Definition vector_resize (n : nat) (v : list string) : list string :=
  take n v ++ replicate (n - length v) "".

(** The copy loop of [getDimNames]:
    [for (IDim; IDim < NDims; ++IDim) Dimensions[IDim] = DimNames[IDim];]
    with [todo] iterations left.  [operator[]] of [std::vector] does not
    check its index: reading or writing past the end is undefined. *)
Fixpoint copyDimNames (todo IDim : nat) (DimNames_ Dimensions : list string)
  : Outcome (list string) :=
  match todo with
  | O => Ret Dimensions
  | S todo' =>
      match DimNames_ !! IDim with
      | None => Undefined OutOfBounds
      | Some x =>
          if bool_decide (IDim < length Dimensions)%nat then
            copyDimNames todo' (S IDim) DimNames_ (<[IDim := x]> Dimensions)
          else Undefined OutOfBounds
      end
  end.

Module MetaData.

Definition set_FieldName (x : string) (d : DataObject) : DataObject :=
  mkData x (MetaMap d) (NDims d) (DimNames d).
Definition set_MetaMap (x : gmap string Any) (d : DataObject) : DataObject :=
  mkData (FieldName d) x (NDims d) (DimNames d).
Definition set_NDims (x : int) (d : DataObject) : DataObject :=
  mkData (FieldName d) (MetaMap d) x (DimNames d).
Definition set_DimNames (x : list string) (d : DataObject) : DataObject :=
  mkData (FieldName d) (MetaMap d) (NDims d) x.

Definition has (Name : string) : M bool :=
  gets (fun w => map_contains Name (AllFields w)).

(** [AllFields[Name]] as an rvalue *)
Definition AllFields_at (Name : string) : M shared_ptr :=
  fun w =>
    let (p, m) := map_at None Name (AllFields w) in
    (Ret p, set_AllFields m w).

(** [AllFields[Name] = Data] *)
Definition AllFields_assign (Name : string) (Data : shared_ptr) : M unit :=
  modify (fun w => set_AllFields (<[Name := Data]> (AllFields w)) w).

(** [create(Name)]: an empty metadata container *)
Definition create (Name : string) : M shared_ptr :=
  let* b := has Name in
  if b then
    LOG_ERROR (FieldAlreadyExists Name) ;;
    ret None
  else
    let* Data := make_shared DataObject in
    update DataObject Data (set_FieldName Name) ;;
    AllFields_assign Name Data ;;
    ret Data.

Definition hasEntry (this : shared_ptr) (Name : string) : M bool :=
  let* d := deref DataObject this in
  ret (map_contains Name (MetaMap d)).

Definition addEntry (this : shared_ptr) (Name : string) (Value : Any)
  : M int :=
  let* b := hasEntry this Name in
  if b then
    let* d := deref DataObject this in
    LOG_ERROR (EntryAlreadyExists Name (FieldName d)) ;;
    ret (-1)
  else
    (* MetaMap[Name] = Value *)
    update DataObject this
           (fun d => set_MetaMap (<[Name := Value]> (MetaMap d)) d) ;;
    ret 0.

Definition removeEntry (this : shared_ptr) (Name : string) : M int :=
  let* b := hasEntry this Name in
  if negb b then
    let* d := deref DataObject this in
    LOG_ERROR (EntryRemoveMissing Name (FieldName d)) ;;
    ret (-1)
  else
    let* d := deref DataObject this in
    let (n, m) := map_erase Name (MetaMap d) in
    update DataObject this (set_MetaMap m) ;;
    if negb (n =? 1)%Z then
      LOG_ERROR (EntryEraseUnknown Name (FieldName d)) ;;
      ret (-2)
    else
      ret 0.

(** The array form of [create]. *)
Definition create_array (Name Description Units StdName : string)
           (ValidMin ValidMax FillValue : Any) (NumDims : int)
           (Dimensions : list string) : M shared_ptr :=
  let* Data := create Name in
  if bool_decide (Data <> None) then
    update DataObject Data (set_NDims NumDims) ;;
    update DataObject Data (set_DimNames Dimensions) ;;
    addEntry Data "Description" (AnyString Description) ;;
    addEntry Data "Units" (AnyString Units) ;;
    addEntry Data "StdName" (AnyString StdName) ;;
    addEntry Data "ValidMin" ValidMin ;;
    addEntry Data "ValidMax" ValidMax ;;
    addEntry Data "FillValue" FillValue ;;
    ret Data
  else
    LOG_ERROR (FieldCreateFailed Name) ;;
    ret Data.

(** [for (const auto &MetaPair : MetaPairs) Data->addEntry(...)] *)
Fixpoint addEntries (Data : shared_ptr) (MetaPairs : list (string * Any))
  : M unit :=
  match MetaPairs with
  | [] => ret tt
  | MetaPair :: rest =>
      addEntry Data (fst MetaPair) (snd MetaPair) ;;
      addEntries Data rest
  end.

(** The form of [create] that takes a list of (name, value) pairs. *)
Definition create_pairs (Name : string) (MetaPairs : list (string * Any))
  : M shared_ptr :=
  let* Data := create Name in
  if bool_decide (Data <> None) then
    update DataObject Data (set_NDims 0) ;;
    addEntries Data MetaPairs ;;
    ret Data
  else
    LOG_ERROR (FieldCreateFailed Name) ;;
    ret Data.

Definition destroy (Name : string) : M int :=
  let* b := has Name in
  if negb b then
    LOG_ERROR (FieldDestroyMissing Name) ;;
    ret (-1)
  else
    let* n := (fun w => let (n, m) := map_erase Name (AllFields w) in
                        (Ret n, set_AllFields m w)) in
    if negb (n =? 1)%Z then
      LOG_ERROR (FieldEraseUnknown Name) ;;
      ret (-2)
    else
      ret 0.

Definition clear : M unit := modify (set_AllFields ∅).

Definition get (Name : string) : M shared_ptr :=
  let* b := has Name in
  if negb b then
    LOG_ERROR (FieldGetMissing Name) ;;
    ret None
  else
    AllFields_at Name.

Definition getNumDims (this : shared_ptr) : M int :=
  let* d := deref DataObject this in
  ret (NDims d).

(** [getDimNames(Dimensions)]: the error code and the new contents of
    the vector passed by reference. *)
Definition getDimNames (this : shared_ptr) (Dimensions : list string)
  : M (int * list string) :=
  let* d := deref DataObject this in
  if (0 <? NDims d)%Z then
    let Dimensions := vector_resize (Z.to_nat (NDims d)) Dimensions in
    match copyDimNames (Z.to_nat (NDims d)) 0 (DimNames d) Dimensions with
    | Ret Dimensions => ret (0, Dimensions)
    | Throws e => throw e
    | Undefined u => undefined u
    end
  else
    ret (0, []).

(** [MetaMap[Name]] as an rvalue: a missing key is inserted with an
    empty [std::any]. *)
Definition MetaMap_at (this : shared_ptr) (Name : string) : M Any :=
  let* d := deref DataObject this in
  let (a, m) := map_at AnyEmpty Name (MetaMap d) in
  update DataObject this (set_MetaMap m) ;;
  ret a.

(** The six overloads of [getEntry(Name, Value)], one per [Kind]: the
    error code and the new contents of [Value], which is passed by
    reference. *)
Definition getEntry (k : Kind) (this : shared_ptr) (Name : string)
           (Value : ctype k) : M (int * ctype k) :=
  let* b := hasEntry this Name in
  if negb b then
    let* d := deref DataObject this in
    LOG_ERROR (EntryGetMissing Name (FieldName d)) ;;
    ret (-1, Value)
  else
    let* a := MetaMap_at this Name in
    match any_cast k a with
    | Some v => ret (0, v)
    | None => throw bad_any_cast
    end.

End MetaData.

(** ** class MetaGroup *)

Module MetaGroup.

Definition set_GrpName (x : string) (g : GroupObject) : GroupObject :=
  mkGroup x (Fields g).
Definition set_Fields (x : gset string) (g : GroupObject) : GroupObject :=
  mkGroup (GrpName g) x.

Definition has (Name : string) : M bool :=
  gets (fun w => map_contains Name (AllGroups w)).

(** [AllGroups[Name]] as an rvalue *)
Definition AllGroups_at (Name : string) : M shared_ptr :=
  fun w =>
    let (p, m) := map_at None Name (AllGroups w) in
    (Ret p, set_AllGroups m w).

(** [AllGroups[Name] = Group] *)
Definition AllGroups_assign (Name : string) (Group : shared_ptr) : M unit :=
  modify (fun w => set_AllGroups (<[Name := Group]> (AllGroups w)) w).

Definition create (Name : string) : M shared_ptr :=
  let* b := has Name in
  if b then
    LOG_ERROR (GroupAlreadyExists Name) ;;
    ret None
  else
    let* Group := make_shared GroupObject in
    update GroupObject Group (set_GrpName Name) ;;
    AllGroups_assign Name Group ;;
    ret Group.

Definition destroy (Name : string) : M int :=
  let* b := has Name in
  if negb b then
    LOG_ERROR (GroupDestroyMissing Name) ;;
    ret (-1)
  else
    let* n := (fun w => let (n, m) := map_erase Name (AllGroups w) in
                        (Ret n, set_AllGroups m w)) in
    if negb (n =? 1)%Z then
      LOG_ERROR (GroupEraseUnknown Name) ;;
      ret (-2)
    else
      ret 0.

Definition get (Name : string) : M shared_ptr :=
  let* b := has Name in
  if negb b then
    LOG_ERROR (GroupGetMissing Name) ;;
    ret None
  else
    AllGroups_at Name.

(** [Fields.find(FieldName) != Fields.end()] *)
Definition hasField (this : shared_ptr) (FieldName_ : string) : M bool :=
  let* g := deref GroupObject this in
  ret (bool_decide (FieldName_ ∈ Fields g)).

Definition addField (this : shared_ptr) (FieldName_ : string) : M int :=
  let* b := MetaData.has FieldName_ in
  let* RetVal :=
    (if negb b then
       let* g := deref GroupObject this in
       LOG_ERROR (GroupAddUndefinedField FieldName_ (GrpName g)) ;;
       ret (-2)
     else ret 0) in
  (* Fields.insert(FieldName) *)
  update GroupObject this
         (fun g => set_Fields ({[FieldName_]} ∪ Fields g) g) ;;
  ret RetVal.

Definition getField (this : shared_ptr) (FieldName_ : string)
  : M shared_ptr :=
  let* b := hasField this FieldName_ in
  if negb b then
    let* g := deref GroupObject this in
    LOG_ERROR (GroupGetNotMember FieldName_ (GrpName g)) ;;
    ret None
  else
    MetaData.get FieldName_.

Definition removeField (this : shared_ptr) (FieldName_ : string) : M int :=
  let* b := hasField this FieldName_ in
  if negb b then
    let* g := deref GroupObject this in
    LOG_ERROR (GroupRemoveNotMember FieldName_ (GrpName g)) ;;
    ret (-1)
  else
    let* g := deref GroupObject this in
    let (n, s) := set_erase FieldName_ (Fields g) in
    update GroupObject this (set_Fields s) ;;
    if negb (n =? 1)%Z then
      LOG_ERROR (GroupEraseFieldUnknown FieldName_ (GrpName g)) ;;
      ret (-2)
    else
      ret 0.

(** [getFieldList()]: a new set filled by inserting every member. *)
Definition getFieldList (this : shared_ptr) : M (gset string) :=
  let* g := deref GroupObject this in
  ret (foldr (fun x List_ => {[x]} ∪ List_) ∅ (elements (Fields g))).

End MetaGroup.

(** The state in which the record at address [a] is [d]. *)
Definition put_Data (a : positive) (d : DataObject) (w : World) : World :=
  set_DataStore (<[a := d]> (DataStore w)) w.

(** ** The interface of the group registry

    Every public member function of [class MetaGroup], as one call; [run]
    gives the state after the call.  There are no other ways to change
    [AllGroups], which is private. *)

Inductive MetaGroupCall :=
| CallCreate (Name : string)
| CallDestroy (Name : string)
| CallGet (Name : string)
| CallHas (Name : string)
| CallHasField (this : shared_ptr) (Name : string)
| CallAddField (this : shared_ptr) (Name : string)
| CallGetField (this : shared_ptr) (Name : string)
| CallRemoveField (this : shared_ptr) (Name : string)
| CallGetFieldList (this : shared_ptr).

Definition run (c : MetaGroupCall) (w : World) : World :=
  match c with
  | CallCreate Name => snd (MetaGroup.create Name w)
  | CallDestroy Name => snd (MetaGroup.destroy Name w)
  | CallGet Name => snd (MetaGroup.get Name w)
  | CallHas Name => snd (MetaGroup.has Name w)
  | CallHasField this Name => snd (MetaGroup.hasField this Name w)
  | CallAddField this Name => snd (MetaGroup.addField this Name w)
  | CallGetField this Name => snd (MetaGroup.getField this Name w)
  | CallRemoveField this Name => snd (MetaGroup.removeField this Name w)
  | CallGetFieldList this => snd (MetaGroup.getFieldList this w)
  end.

(** ** The interfaces of the dimension and of the field registry

    As for [MetaGroup] above: every public member function of
    [class MetaDim] and of [class MetaData] as one call.  ([begin]/[end]
    of [MetaDim] only read; [getAllEntries] hands out a raw pointer into
    the record and is not part of the embedding.) *)

Inductive MetaDimCall :=
| DimCreate (Name : string) (Length_ : I4)
| DimDestroy (Name : string)
| DimGet (Name : string)
| DimHas (Name : string)
| DimGetLength (this : shared_ptr)
| DimGetDimLength (Name : string)
| DimGetNumDefinedDims
| DimClear.

Definition run_dim (c : MetaDimCall) (w : World) : World :=
  match c with
  | DimCreate Name Length_ => snd (MetaDim.create Name Length_ w)
  | DimDestroy Name => snd (MetaDim.destroy Name w)
  | DimGet Name => snd (MetaDim.get Name w)
  | DimHas Name => snd (MetaDim.has Name w)
  | DimGetLength this => snd (MetaDim.getLength this w)
  | DimGetDimLength Name => snd (MetaDim.getDimLength Name w)
  | DimGetNumDefinedDims => snd (MetaDim.getNumDefinedDims w)
  | DimClear => snd (MetaDim.clear w)
  end.

Inductive MetaDataCall :=
| DataCreate (Name : string)
| DataCreateArray (Name Description Units StdName : string)
                  (ValidMin ValidMax FillValue : Any) (NumDims : int)
                  (Dimensions : list string)
| DataCreatePairs (Name : string) (MetaPairs : list (string * Any))
| DataDestroy (Name : string)
| DataClear
| DataGet (Name : string)
| DataHas (Name : string)
| DataHasEntry (this : shared_ptr) (Name : string)
| DataAddEntry (this : shared_ptr) (Name : string) (Value : Any)
| DataRemoveEntry (this : shared_ptr) (Name : string)
| DataGetNumDims (this : shared_ptr)
| DataGetDimNames (this : shared_ptr) (Dimensions : list string)
| DataGetEntry (k : Kind) (this : shared_ptr) (Name : string)
               (Value : ctype k).

Definition run_data (c : MetaDataCall) (w : World) : World :=
  match c with
  | DataCreate Name => snd (MetaData.create Name w)
  | DataCreateArray Name Description Units StdName ValidMin ValidMax
                    FillValue NumDims Dimensions =>
      snd (MetaData.create_array Name Description Units StdName ValidMin
             ValidMax FillValue NumDims Dimensions w)
  | DataCreatePairs Name MetaPairs =>
      snd (MetaData.create_pairs Name MetaPairs w)
  | DataDestroy Name => snd (MetaData.destroy Name w)
  | DataClear => snd (MetaData.clear w)
  | DataGet Name => snd (MetaData.get Name w)
  | DataHas Name => snd (MetaData.has Name w)
  | DataHasEntry this Name => snd (MetaData.hasEntry this Name w)
  | DataAddEntry this Name Value => snd (MetaData.addEntry this Name Value w)
  | DataRemoveEntry this Name => snd (MetaData.removeEntry this Name w)
  | DataGetNumDims this => snd (MetaData.getNumDims this w)
  | DataGetDimNames this Dimensions =>
      snd (MetaData.getDimNames this Dimensions w)
  | DataGetEntry k this Name Value =>
      snd (MetaData.getEntry k this Name Value w)
  end.

(** A call of any of the three classes. *)
Inductive ApiCall :=
| OnDims (c : MetaDimCall)
| OnFields (c : MetaDataCall)
| OnGroups (c : MetaGroupCall).

Definition step (c : ApiCall) (w : World) : World :=
  match c with
  | OnDims c => run_dim c w
  | OnFields c => run_data c w
  | OnGroups c => run c w
  end.

(** The member functions that only ask: everything but [create],
    [destroy], [clear], [addEntry], [removeEntry], [addField] and
    [removeField]. *)
Definition is_query (c : ApiCall) : bool :=
  match c with
  | OnDims (DimCreate _ _ | DimDestroy _ | DimClear) => false
  | OnFields (DataCreate _ | DataCreateArray _ _ _ _ _ _ _ _ _
             | DataCreatePairs _ _ | DataDestroy _ | DataClear
             | DataAddEntry _ _ _ | DataRemoveEntry _ _) => false
  | OnGroups (CallCreate _ | CallDestroy _ | CallAddField _ _
             | CallRemoveField _ _) => false
  | _ => true
  end.


(** ** Consistency of the static maps

    An entry of a static map is consistent when its pointer is not null,
    points to an object in the store, and that object carries the name
    under which it is registered. *)

Definition entry_ok {T} (name : T -> string) (st : gmap positive T)
           (N : string) (p : option positive) : Prop :=
  match p with
  | Some a =>
      match st !! a with
      | Some o => name o = N
      | None => False
      end
  | None => False
  end.

Definition dims_ok (w : World) : Prop :=
  map_Forall (entry_ok DimName (DimStore w)) (AllDims w).
Definition fields_ok (w : World) : Prop :=
  map_Forall (entry_ok FieldName (DataStore w)) (AllFields w).
Definition groups_ok (w : World) : Prop :=
  map_Forall (entry_ok GrpName (GroupStore w)) (AllGroups w).

Definition consistent (w : World) : Prop :=
  dims_ok w /\ fields_ok w /\ groups_ok w.

Global Instance entry_ok_dec {T} (name : T -> string)
       (st : gmap positive T) (N : string) (p : option positive) :
  Decision (entry_ok name st N p).
Proof.
  unfold entry_ok. destruct p as [a|]; [|apply _].
  destruct (st !! a); apply _.
Defined.

Global Instance consistent_dec (w : World) : Decision (consistent w).
Proof. unfold consistent, dims_ok, fields_ok, groups_ok. apply _. Defined.

(** [m] keeps the part [view] of the state as it is, whatever it returns. *)
Definition keeps {A X} (view : World -> X) (m : M A) : Prop :=
  forall w, view (snd (m w)) = view w.


(** The parts of the state that belong to each class. *)
Definition dims_part (w : World) := (AllDims w, DimStore w).
Definition fields_part (w : World) := (AllFields w, DataStore w).
Definition groups_part (w : World) := (AllGroups w, GroupStore w).
(** Everything but the error log. *)
Definition all_but_log (w : World) :=
  (dims_part w, fields_part w, groups_part w).
(** Everything that does not belong to one class. *)
Definition not_dims (w : World) := (fields_part w, groups_part w).
Definition not_fields (w : World) := (dims_part w, groups_part w).
Definition not_groups (w : World) := (dims_part w, fields_part w).

(** ** LayerThicknessAuxVars::registerFields (LayerThicknessAuxVars.cpp)

    The part of [registerFields] that computes the number of dimensions
    and the dimension names of its two fields; [Field::create], to which
    they are passed, is not part of these sources.  [DimNames] is a vector
    of [NDims] empty strings whose elements 0 and 1 are then assigned. *)

Definition registerFields_NDims : int := 2.

Definition registerFields_DimNames (MeshName : string) : list string :=
  let DimNames := replicate (Z.to_nat registerFields_NDims) "" in
  let DimSuffix := if String.eqb MeshName "Default" then "" else MeshName in
  let DimNames := <[0%nat := "NEdges" ++ DimSuffix]> DimNames in
  let DimNames := <[1%nat := "NVertLevels"]> DimNames in
  DimNames.

(** ** Example states *)

(** Two dimensions, two field records and two groups. *)
Definition populate : M unit :=
  MetaDim.create "NCells" 100 ;;
  MetaDim.create "NEdges" 300 ;;
  MetaData.create_array "Temperature" "sea water temperature" "degC"
    "sea_water_temperature" (AnyR8 (S754_zero false)) (AnyR8 (S754_zero false))
    (AnyR8 (S754_zero true)) 1 ["NCells"] ;;
  MetaData.create "code" ;;
  let* A := MetaGroup.create "A" in
  MetaGroup.create "B" ;;
  MetaGroup.addField A "Temperature" ;;
  ret tt.

Definition w_populated : World := snd (populate World_init).

(** One dimension ["D"] of length 5. *)
Definition w_dim : World := snd (MetaDim.create "D" 5 World_init).

(** One empty record ["F"] (at address 1). *)
Definition w_record : World := snd (MetaData.create "F" World_init).

(** A record ["F"] (at address 1) that has an entry ["E"] with the [I8]
    value 5. *)
Definition w_entry : World :=
  snd ((let* F := MetaData.create "F" in
        MetaData.addEntry F "E" (AnyI8 5)) World_init).

(** A group ["G"] (at address 1) with the member ["F"], whose record has
    been destroyed in the field registry. *)
Definition w_dangling : World :=
  snd ((MetaData.create "F" ;;
        let* G := MetaGroup.create "G" in
        MetaGroup.addField G "F" ;;
        MetaData.destroy "F") World_init).

(** * Properties *)

Lemma map_contains_true {V} (k : string) (m : gmap string V) :
  map_contains k m = true <-> is_Some (m !! k).
Proof. unfold map_contains. apply bool_decide_eq_true. Qed.

Lemma map_contains_false {V} (k : string) (m : gmap string V) :
  map_contains k m = false <-> m !! k = None.
Proof.
  unfold map_contains. rewrite bool_decide_eq_false.
  rewrite eq_None_not_Some. tauto.
Qed.

Lemma map_contains_Some {V} (k : string) (m : gmap string V) (v : V) :
  m !! k = Some v -> map_contains k m = true.
Proof. intros H. apply map_contains_true. eauto. Qed.

Lemma new_addr_fresh {T} (h : gmap addr T) : h !! new_addr h = None.
Proof.
  unfold new_addr. apply not_elem_of_dom. apply is_fresh.
Qed.

(** Unfolding of the monadic plumbing, and reduction of the accessors of
    the state (and of nothing else: map lookups stay folded). *)
Ltac cpp_unfold :=
  unfold LOG_ERROR;
  unfold bind, ret, gets, modify, throw, undefined,
    make_shared, deref, update, release.

Ltac wcbn :=
  cbn [store set_store value_init Managed_Dim Managed_Data Managed_Group
       DimStore DataStore GroupStore AllDims AllFields AllGroups ErrLog
       DimName Length FieldName MetaMap NDims DimNames GrpName Fields
       DimObject_init DataObject_init GroupObject_init
       fst snd negb].

Ltac wsimpl :=
  wcbn;
  unfold add_log, set_DimStore, set_DataStore, set_GroupStore,
    set_AllDims, set_AllFields, set_AllGroups,
    MetaData.set_FieldName, MetaData.set_MetaMap, MetaData.set_NDims,
    MetaData.set_DimNames, MetaGroup.set_GrpName, MetaGroup.set_Fields;
  wcbn.

Ltac cpp_simpl := cpp_unfold; wsimpl.

(** Re-assembling a state from its own components. *)
Lemma World_eta (w : World) :
  mkWorld (DimStore w) (DataStore w) (GroupStore w) (AllDims w)
          (AllFields w) (AllGroups w) (ErrLog w) = w.
Proof. destruct w; reflexivity. Qed.

Lemma bind_Ret {A B} (m : M A) (f : A -> M B) (w w' : World) (a : A) :
  m w = (Ret a, w') -> bind m f w = f a w'.
Proof. unfold bind. intros ->. reflexivity. Qed.

(** [get] on the three registries, for a name that is present. *)
Lemma MetaDim_get_found (w : World) (D : string) (p : shared_ptr) :
  AllDims w !! D = Some p -> MetaDim.get D w = (Ret p, w).
Proof.
  intros H. unfold MetaDim.get, MetaDim.has, MetaDim.AllDims_at, map_at.
  cpp_unfold. rewrite (map_contains_Some D (AllDims w) p H). cbn [negb].
  rewrite H. unfold set_AllDims. rewrite World_eta. reflexivity.
Qed.

Lemma MetaData_get_found (w : World) (F : string) (p : shared_ptr) :
  AllFields w !! F = Some p -> MetaData.get F w = (Ret p, w).
Proof.
  intros H. unfold MetaData.get, MetaData.has, MetaData.AllFields_at, map_at.
  cpp_unfold. rewrite (map_contains_Some F (AllFields w) p H). cbn [negb].
  rewrite H. unfold set_AllFields. rewrite World_eta. reflexivity.
Qed.

Lemma MetaGroup_get_found (w : World) (N : string) (p : shared_ptr) :
  AllGroups w !! N = Some p -> MetaGroup.get N w = (Ret p, w).
Proof.
  intros H. unfold MetaGroup.get, MetaGroup.has, MetaGroup.AllGroups_at, map_at.
  cpp_unfold. rewrite (map_contains_Some N (AllGroups w) p H). cbn [negb].
  rewrite H. unfold set_AllGroups. rewrite World_eta. reflexivity.
Qed.

Lemma to_int_small (z : Z) : 0 <= z < 2 ^ 31 -> to_int z = z.
Proof.
  intros H. unfold to_int. rewrite Z.mod_small; lia.
Qed.

(** [MetaDim::create] for a name that is already defined with the same
    length: the existing dimension is returned and nothing changes. *)
Lemma MetaDim_create_existing (w : World) (D : string) (p : positive)
      (d : DimObject) :
  AllDims w !! D = Some (Some p) ->
  DimStore w !! p = Some d ->
  MetaDim.create D (Length d) w = (Ret (Some p), w).
Proof.
  intros HD Hp. unfold MetaDim.create.
  erewrite bind_Ret by reflexivity.
  erewrite bind_Ret by reflexivity. wsimpl.
  rewrite (map_contains_Some D (AllDims w) (Some p) HD).
  erewrite bind_Ret by (apply MetaDim_get_found; exact HD).
  erewrite bind_Ret by reflexivity.
  wsimpl. rewrite (delete_insert_id _ _ _ (new_addr_fresh (DimStore w))).
  cpp_simpl. rewrite Hp, Z.eqb_refl. wsimpl.
  rewrite World_eta. reflexivity.
Qed.

(** [MetaDim::create] for a name that is not defined. *)
Lemma MetaDim_create_new (w : World) (D : string) (L : Z) :
  AllDims w !! D = None ->
  MetaDim.create D L w =
    (Ret (Some (new_addr (DimStore w))),
     mkWorld (<[new_addr (DimStore w) := mkDim D L]> (DimStore w))
             (DataStore w) (GroupStore w)
             (<[D := Some (new_addr (DimStore w))]> (AllDims w))
             (AllFields w) (AllGroups w) (ErrLog w)).
Proof.
  intros HD. unfold MetaDim.create, MetaDim.has, MetaDim.AllDims_assign.
  cpp_simpl.
  rewrite (proj2 (map_contains_false D (AllDims w)) HD). wsimpl.
  rewrite !lookup_insert_eq. wsimpl. rewrite !lookup_insert_eq. wsimpl.
  rewrite !insert_insert_eq. reflexivity.
Qed.

(** *** Field metadata records *)

Lemma any_cast_make_any (k : Kind) (v : ctype k) :
  any_cast k (make_any k v) = Some v.
Proof. destruct k; reflexivity. Qed.

Lemma any_cast_other_kind (k k' : Kind) (v : ctype k) :
  k' <> k -> any_cast k' (make_any k v) = None.
Proof. destruct k, k'; intros H; try reflexivity; congruence. Qed.

Lemma DataObject_eta (d : DataObject) :
  mkData (FieldName d) (MetaMap d) (NDims d) (DimNames d) = d.
Proof. destruct d; reflexivity. Qed.

Section Records.

Variables (w : World) (a : positive) (d : DataObject) (Name : string).
Hypothesis Ha : DataStore w !! a = Some d.

Lemma hasEntry_spec :
  MetaData.hasEntry (Some a) Name w =
    (Ret (map_contains Name (MetaMap d)), w).
Proof. unfold MetaData.hasEntry. cpp_simpl. rewrite Ha. reflexivity. Qed.

Lemma addEntry_new (Value : Any) :
  MetaMap d !! Name = None ->
  MetaData.addEntry (Some a) Name Value w =
    (Ret 0,
     set_DataStore
       (<[a := MetaData.set_MetaMap (<[Name := Value]> (MetaMap d)) d]>
          (DataStore w)) w).
Proof.
  intros H. unfold MetaData.addEntry.
  erewrite bind_Ret by apply hasEntry_spec.
  rewrite (proj2 (map_contains_false _ _) H).
  cpp_simpl. rewrite Ha. reflexivity.
Qed.

Lemma addEntry_existing (Value old : Any) :
  MetaMap d !! Name = Some old ->
  MetaData.addEntry (Some a) Name Value w =
    (Ret (-1), add_log (EntryAlreadyExists Name (FieldName d)) w).
Proof.
  intros H. unfold MetaData.addEntry.
  erewrite bind_Ret by apply hasEntry_spec.
  rewrite (map_contains_Some _ _ _ H).
  cpp_simpl. rewrite Ha. reflexivity.
Qed.

Lemma removeEntry_existing (old : Any) :
  MetaMap d !! Name = Some old ->
  MetaData.removeEntry (Some a) Name w =
    (Ret 0,
     set_DataStore
       (<[a := MetaData.set_MetaMap (delete Name (MetaMap d)) d]>
          (DataStore w)) w).
Proof.
  intros H. unfold MetaData.removeEntry.
  erewrite bind_Ret by apply hasEntry_spec.
  rewrite (map_contains_Some _ _ _ H). cbn [negb].
  cpp_simpl. rewrite Ha.
  unfold map_erase. rewrite (map_contains_Some _ _ _ H).
  wsimpl. rewrite Ha. reflexivity.
Qed.

Lemma getEntry_existing (k : Kind) (Value : ctype k) (x : Any) :
  MetaMap d !! Name = Some x ->
  MetaData.getEntry k (Some a) Name Value w =
    (match any_cast k x with
     | Some v => Ret (0, v)
     | None => Throws bad_any_cast
     end, w).
Proof.
  intros H. unfold MetaData.getEntry.
  erewrite bind_Ret by apply hasEntry_spec.
  rewrite (map_contains_Some _ _ _ H). cbn [negb].
  unfold MetaData.MetaMap_at, map_at.
  cpp_simpl. rewrite Ha, H. wsimpl. rewrite Ha.
  rewrite DataObject_eta, (insert_id _ _ _ Ha), World_eta.
  destruct (any_cast k x); reflexivity.
Qed.

Lemma getEntry_missing (k : Kind) (Value : ctype k) :
  MetaMap d !! Name = None ->
  MetaData.getEntry k (Some a) Name Value w =
    (Ret (-1, Value), add_log (EntryGetMissing Name (FieldName d)) w).
Proof.
  intros H. unfold MetaData.getEntry.
  erewrite bind_Ret by apply hasEntry_spec.
  rewrite (proj2 (map_contains_false _ _) H).
  cpp_simpl. rewrite Ha. reflexivity.
Qed.

End Records.

Lemma addEntry_success_inv (w : World) (a : positive) (Name : string)
      (Value : Any) :
  fst (MetaData.addEntry (Some a) Name Value w) = Ret 0 ->
  exists d, DataStore w !! a = Some d /\ MetaMap d !! Name = None.
Proof.
  intros H. destruct (DataStore w !! a) as [d|] eqn:Ha.
  - exists d. split; [reflexivity|].
    destruct (MetaMap d !! Name) as [old|] eqn:HN; [|reflexivity].
    rewrite (addEntry_existing w a d Name Ha Value old HN) in H.
    discriminate H.
  - revert H. unfold MetaData.addEntry, MetaData.hasEntry.
    cpp_simpl. rewrite Ha. discriminate.
Qed.

(** C1 (amended): an entry that was added with a value of one of the six
    supported kinds is read back unchanged, with status 0, by the
    [getEntry] overload of the same kind; the overload of any other kind
    does not return at all: the cast throws [std::bad_any_cast]. *)
Theorem entry_round_trip_exact_kind (w : World) (a : positive)
        (Name : string) (k : Kind) (v : ctype k) :
  fst (MetaData.addEntry (Some a) Name (make_any k v) w) = Ret 0 ->
  exists w1,
    MetaData.addEntry (Some a) Name (make_any k v) w = (Ret 0, w1) /\
    (forall v0 : ctype k,
        MetaData.getEntry k (Some a) Name v0 w1 = (Ret (0, v), w1)) /\
    (forall (k' : Kind) (v0 : ctype k'),
        k' <> k ->
        MetaData.getEntry k' (Some a) Name v0 w1 = (Throws bad_any_cast, w1)).
Proof.
  intros H. destruct (addEntry_success_inv _ _ _ _ H) as (d & Ha & HN).
  eexists. split; [apply (addEntry_new w a d Name Ha _ HN)|].
  set (d1 := MetaData.set_MetaMap (<[Name := make_any k v]> (MetaMap d)) d).
  set (w1 := set_DataStore (<[a := d1]> (DataStore w)) w).
  assert (Ha1 : DataStore w1 !! a = Some d1) by apply lookup_insert_eq.
  assert (HN1 : MetaMap d1 !! Name = Some (make_any k v))
    by apply lookup_insert_eq.
  split.
  - intros v0. rewrite (getEntry_existing w1 a d1 Name Ha1 k v0 _ HN1).
    rewrite any_cast_make_any. reflexivity.
  - intros k' v0 Hk.
    rewrite (getEntry_existing w1 a d1 Name Ha1 k' v0 _ HN1).
    rewrite (any_cast_other_kind k k' v Hk). reflexivity.
Qed.

(** C7: the second [addEntry] under one name fails with status -1 and
    leaves the stored value alone; after [removeEntry] the name can be
    added again with a new value. *)
Theorem duplicate_entry_rejected_then_replaceable (w : World) (a : positive)
        (v0 : Z) :
  fst (MetaData.addEntry (Some a) "E" (AnyI4 1) w) = Ret 0 ->
  exists d w',
    DataStore w !! a = Some d /\
    (let* r1 := MetaData.addEntry (Some a) "E" (AnyI4 1) in
     let* r2 := MetaData.addEntry (Some a) "E" (AnyI4 2) in
     let* g1 := MetaData.getEntry KI4 (Some a) "E" v0 in
     let* r3 := MetaData.removeEntry (Some a) "E" in
     let* r4 := MetaData.addEntry (Some a) "E" (AnyI4 2) in
     let* g2 := MetaData.getEntry KI4 (Some a) "E" v0 in
     ret (r1, r2, g1, r3, r4, g2)) w
    = (Ret (0, -1, (0, 1), 0, 0, (0, 2)), w') /\
    ErrLog w' = EntryAlreadyExists "E" (FieldName d) :: ErrLog w.
Proof.
  intros H. destruct (addEntry_success_inv _ _ _ _ H) as (d & Ha & HN).
  exists d. eexists. split; [exact Ha|].
  (* first addEntry *)
  erewrite bind_Ret by (apply (addEntry_new w a d "E" Ha _ HN)).
  set (d1 := MetaData.set_MetaMap (<["E" := AnyI4 1]> (MetaMap d)) d).
  set (w1 := set_DataStore (<[a := d1]> (DataStore w)) w).
  assert (Ha1 : DataStore w1 !! a = Some d1) by apply lookup_insert_eq.
  assert (HN1 : MetaMap d1 !! "E" = Some (AnyI4 1)) by apply lookup_insert_eq.
  (* second addEntry: rejected *)
  erewrite bind_Ret by (apply (addEntry_existing w1 a d1 "E" Ha1 _ _ HN1)).
  set (w2 := add_log (EntryAlreadyExists "E" (FieldName d1)) w1).
  assert (Ha2 : DataStore w2 !! a = Some d1) by exact Ha1.
  erewrite bind_Ret by (apply (getEntry_existing w2 a d1 "E" Ha2 KI4 v0 _ HN1)).
  (* removeEntry *)
  erewrite bind_Ret by (apply (removeEntry_existing w2 a d1 "E" Ha2 _ HN1)).
  set (d3 := MetaData.set_MetaMap (delete "E" (MetaMap d1)) d1).
  set (w3 := set_DataStore (<[a := d3]> (DataStore w2)) w2).
  assert (Ha3 : DataStore w3 !! a = Some d3) by apply lookup_insert_eq.
  assert (HN3 : MetaMap d3 !! "E" = None) by apply lookup_delete_eq.
  (* addEntry again *)
  erewrite bind_Ret by (apply (addEntry_new w3 a d3 "E" Ha3 _ HN3)).
  set (d4 := MetaData.set_MetaMap (<["E" := AnyI4 2]> (MetaMap d3)) d3).
  set (w4 := set_DataStore (<[a := d4]> (DataStore w3)) w3).
  assert (Ha4 : DataStore w4 !! a = Some d4) by apply lookup_insert_eq.
  assert (HN4 : MetaMap d4 !! "E" = Some (AnyI4 2)) by apply lookup_insert_eq.
  erewrite bind_Ret by (apply (getEntry_existing w4 a d4 "E" Ha4 KI4 v0 _ HN4)).
  split; reflexivity.
Qed.

(** *** The field registry *)

Lemma has_false_inv (w : World) (F : string) :
  fst (MetaData.has F w) = Ret false -> AllFields w !! F = None.
Proof.
  unfold MetaData.has, gets. cbn [fst]. intros H.
  apply map_contains_false. congruence.
Qed.

Lemma MetaData_create_new (w : World) (F : string) :
  AllFields w !! F = None ->
  MetaData.create F w =
    (Ret (Some (new_addr (DataStore w))),
     mkWorld (DimStore w)
             (<[new_addr (DataStore w) := mkData F ∅ 0 []]> (DataStore w))
             (GroupStore w) (AllDims w)
             (<[F := Some (new_addr (DataStore w))]> (AllFields w))
             (AllGroups w) (ErrLog w)).
Proof.
  intros HF. unfold MetaData.create, MetaData.has, MetaData.AllFields_assign.
  cpp_simpl.
  rewrite (proj2 (map_contains_false F (AllFields w)) HF). wsimpl.
  rewrite !lookup_insert_eq. wsimpl.
  rewrite !insert_insert_eq. reflexivity.
Qed.

Lemma MetaData_create_existing (w : World) (F : string) (p : option positive) :
  AllFields w !! F = Some p ->
  MetaData.create F w = (Ret None, add_log (FieldAlreadyExists F) w).
Proof.
  intros HF. unfold MetaData.create, MetaData.has. cpp_simpl.
  rewrite (map_contains_Some F (AllFields w) p HF). reflexivity.
Qed.

Lemma MetaData_create_array_existing (w : World) (F : string)
      (p : option positive) (Description Units StdName : string)
      (ValidMin ValidMax FillValue : Any) (NumDims : Z)
      (Dimensions : list string) :
  AllFields w !! F = Some p ->
  MetaData.create_array F Description Units StdName ValidMin ValidMax
                        FillValue NumDims Dimensions w =
    (Ret None,
     add_log (FieldCreateFailed F) (add_log (FieldAlreadyExists F) w)).
Proof.
  intros HF. unfold MetaData.create_array.
  erewrite bind_Ret by (apply (MetaData_create_existing w F p HF)).
  reflexivity.
Qed.

Lemma MetaData_create_pairs_existing (w : World) (F : string)
      (p : option positive) (MetaPairs : list (string * Any)) :
  AllFields w !! F = Some p ->
  MetaData.create_pairs F MetaPairs w =
    (Ret None,
     add_log (FieldCreateFailed F) (add_log (FieldAlreadyExists F) w)).
Proof.
  intros HF. unfold MetaData.create_pairs.
  erewrite bind_Ret by (apply (MetaData_create_existing w F p HF)).
  reflexivity.
Qed.

(** C10: the bare [create] of a new name returns a value-initialised
    record: no dimensions, no dimension names, no entries. *)
Theorem bare_create_value_initialised (w : World) (Name : string) :
  fst (MetaData.has Name w) = Ret false ->
  exists a w1,
    MetaData.create Name w = (Ret (Some a), w1) /\
    DataStore w1 !! a = Some (mkData Name ∅ 0 []) /\
    fst (MetaData.getNumDims (Some a) w1) = Ret 0 /\
    (forall Dimensions : list string,
        fst (MetaData.getDimNames (Some a) Dimensions w1) = Ret (0, [])) /\
    (forall e : string, fst (MetaData.hasEntry (Some a) e w1) = Ret false).
Proof.
  intros H. apply has_false_inv in H.
  eexists _, _. split; [apply (MetaData_create_new w Name H)|].
  match goal with |- ?st !! ?x = _ /\ _ =>
    assert (Ha : st !! x = Some (mkData Name ∅ 0 []))
      by apply lookup_insert_eq
  end.
  split; [exact Ha|]. split; [|split].
  - unfold MetaData.getNumDims. cpp_simpl. rewrite lookup_insert_eq.
    reflexivity.
  - intros Dimensions. unfold MetaData.getDimNames. cpp_simpl.
    rewrite lookup_insert_eq. reflexivity.
  - intros e. erewrite hasEntry_spec by exact Ha. reflexivity.
Qed.

(** C6: once a field name is registered, every form of [create] for that
    name returns [nullptr] and logs the failure; the registered record,
    its address and its contents stay as they were. *)
Theorem duplicate_field_create_rejected (w : World) (F : string)
        (Description Units StdName : string)
        (ValidMin ValidMax FillValue : Any) (NumDims : Z)
        (Dimensions : list string) (MetaPairs : list (string * Any)) :
  exists r1 w1 p,
    MetaData.create F w = (Ret r1, w1) /\
    MetaData.get F w1 = (Ret p, w1) /\
    (fst (MetaData.has F w) = Ret false ->
     exists a, r1 = Some a /\ p = Some a /\
               DataStore w1 !! a = Some (mkData F ∅ 0 [])) /\
    let w2 := add_log (FieldAlreadyExists F) w1 in
    let w3 := add_log (FieldCreateFailed F) w2 in
    MetaData.create F w1 = (Ret None, w2) /\
    MetaData.create_array F Description Units StdName ValidMin ValidMax
                          FillValue NumDims Dimensions w1 = (Ret None, w3) /\
    MetaData.create_pairs F MetaPairs w1 = (Ret None, w3) /\
    MetaData.get F w2 = (Ret p, w2) /\
    MetaData.get F w3 = (Ret p, w3) /\
    DataStore w2 = DataStore w1 /\ DataStore w3 = DataStore w1.
Proof.
  assert (Hmain : exists r1 w1 p,
    MetaData.create F w = (Ret r1, w1) /\ AllFields w1 !! F = Some p /\
    (fst (MetaData.has F w) = Ret false ->
     exists a, r1 = Some a /\ p = Some a /\
               DataStore w1 !! a = Some (mkData F ∅ 0 []))).
  { destruct (AllFields w !! F) as [q|] eqn:HF.
    - eexists _, _, q. split; [apply (MetaData_create_existing w F q HF)|].
      split; [exact HF|]. intros H. apply has_false_inv in H. congruence.
    - eexists _, _, _. split; [apply (MetaData_create_new w F HF)|].
      split; [apply lookup_insert_eq|]. intros _.
      eexists. split; [reflexivity|]. split; [reflexivity|].
      apply lookup_insert_eq. }
  destruct Hmain as (r1 & w1 & p & Hc & HF1 & Hfresh).
  exists r1, w1, p.
  pose proof (MetaData_get_found w1 F p HF1) as Hget.
  split; [exact Hc|]. split; [exact Hget|]. split; [exact Hfresh|].
  cbv zeta.
  split; [apply (MetaData_create_existing w1 F p HF1)|].
  split; [apply (MetaData_create_array_existing w1 F p); exact HF1|].
  split; [apply (MetaData_create_pairs_existing w1 F p); exact HF1|].
  split; [apply MetaData_get_found; exact HF1|].
  split; [apply MetaData_get_found; exact HF1|].
  split; reflexivity.
Qed.

(** *** Dimension names of a record *)

Lemma copyDimNames_in_bounds (src : list string) :
  forall (todo IDim : nat) (dst : list string),
    (IDim + todo <= length src)%nat ->
    (IDim + todo <= length dst)%nat ->
    copyDimNames todo IDim src dst =
      Ret (take IDim dst ++ take todo (drop IDim src)
             ++ drop (IDim + todo) dst)%list.
Proof.
  induction todo as [|t IH]; intros IDim dst Hsrc Hdst; cbn [copyDimNames].
  - rewrite Nat.add_0_r, take_0. cbn [app]. rewrite take_drop. reflexivity.
  - destruct (lookup_lt_is_Some_2 src IDim ltac:(lia)) as [x Hx].
    rewrite Hx, bool_decide_eq_true_2 by lia.
    rewrite IH by (rewrite ?length_insert; lia).
    f_equal.
    rewrite (take_S_r _ _ x)
      by (apply list_lookup_insert_eq; lia).
    rewrite take_insert_ge by lia.
    rewrite drop_insert_lt by lia.
    rewrite (drop_S src x IDim Hx). cbn [take].
    rewrite <- app_assoc. cbn [app].
    replace (S IDim + t)%nat with (IDim + S t)%nat by lia. reflexivity.
Qed.

Lemma copyDimNames_out_of_bounds (src : list string) :
  forall (todo IDim : nat) (dst : list string),
    (IDim <= length src)%nat ->
    (length src < IDim + todo)%nat ->
    copyDimNames todo IDim src dst = Undefined OutOfBounds.
Proof.
  induction todo as [|t IH]; intros IDim dst Hle Hsrc; cbn [copyDimNames].
  - lia.
  - destruct (src !! IDim) as [x|] eqn:Hx; [|reflexivity].
    case_bool_decide; [|reflexivity].
    apply lookup_lt_Some in Hx. apply IH; lia.
Qed.

Lemma length_vector_resize (n : nat) (v : list string) :
  length (vector_resize n v) = n.
Proof.
  unfold vector_resize.
  rewrite length_app, length_take, length_replicate. lia.
Qed.

Lemma getDimNames_spec (w : World) (a : positive) (d : DataObject)
      (Dimensions : list string) :
  DataStore w !! a = Some d ->
  MetaData.getDimNames (Some a) Dimensions w =
    (if (0 <? NDims d)%Z then
       if (NDims d <=? Z.of_nat (length (DimNames d)))%Z then
         Ret (0, take (Z.to_nat (NDims d)) (DimNames d))
       else Undefined OutOfBounds
     else Ret (0, []), w).
Proof.
  intros Ha. unfold MetaData.getDimNames. cpp_simpl. rewrite Ha.
  destruct (Z.ltb_spec 0 (NDims d)) as [Hpos|Hnpos]; [|reflexivity].
  destruct (Z.leb_spec (NDims d) (Z.of_nat (length (DimNames d))))
    as [Hle|Hgt].
  - rewrite copyDimNames_in_bounds
      by (rewrite ?length_vector_resize; lia).
    rewrite take_0, drop_0. cbn [app plus].
    rewrite (drop_ge (vector_resize _ _))
      by (rewrite length_vector_resize; lia).
    rewrite app_nil_r. reflexivity.
  - rewrite copyDimNames_out_of_bounds by lia. reflexivity.
Qed.

(** Steps on a state of the form [put_Data a d w]: the record at [a] is
    replaced again, so that the state keeps this form. *)
Lemma put_Data_lookup (a : positive) (d : DataObject) (w : World) :
  DataStore (put_Data a d w) !! a = Some d.
Proof. apply lookup_insert_eq. Qed.

Lemma put_Data_put (a : positive) (d d' : DataObject) (w : World) :
  put_Data a d' (put_Data a d w) = put_Data a d' w.
Proof.
  unfold put_Data, set_DataStore. cbn [DataStore DimStore GroupStore AllDims
    AllFields AllGroups ErrLog].
  rewrite insert_insert_eq. reflexivity.
Qed.

Lemma update_put (a : positive) (d : DataObject) (w : World)
      (f : DataObject -> DataObject) :
  update DataObject (Some a) f (put_Data a d w) = (Ret tt, put_Data a (f d) w).
Proof.
  unfold update. cbn [store set_store Managed_Data].
  rewrite put_Data_lookup. fold (put_Data a (f d) (put_Data a d w)).
  rewrite put_Data_put. reflexivity.
Qed.

Lemma addEntry_put (a : positive) (d : DataObject) (w : World)
      (Name : string) (Value : Any) :
  MetaMap d !! Name = None ->
  MetaData.addEntry (Some a) Name Value (put_Data a d w) =
    (Ret 0,
     put_Data a (mkData (FieldName d) (<[Name := Value]> (MetaMap d))
                        (NDims d) (DimNames d)) w).
Proof.
  intros H.
  rewrite (addEntry_new (put_Data a d w) a d Name
             (put_Data_lookup a d w) Value H).
  fold (put_Data a (MetaData.set_MetaMap (<[Name := Value]> (MetaMap d)) d)
          (put_Data a d w)).
  rewrite put_Data_put. reflexivity.
Qed.

(** One [addEntry] of a name that the record under construction does not
    have yet. *)
Ltac add_fresh_entry :=
  erewrite bind_Ret
    by (apply addEntry_put; cbn [MetaMap];
        repeat (rewrite lookup_insert_ne by discriminate);
        apply lookup_empty);
  cbn [FieldName MetaMap NDims DimNames].

Lemma MetaData_create_array_new (w : World) (F : string)
      (Description Units StdName : string)
      (ValidMin ValidMax FillValue : Any) (NumDims : Z)
      (Dimensions : list string) :
  AllFields w !! F = None ->
  exists w1 entries,
    MetaData.create_array F Description Units StdName ValidMin ValidMax
                          FillValue NumDims Dimensions w =
      (Ret (Some (new_addr (DataStore w))), w1) /\
    DataStore w1 !! new_addr (DataStore w) =
      Some (mkData F entries NumDims Dimensions) /\
    entries !! "FillValue" = Some FillValue /\
    AllFields w1 = <[F := Some (new_addr (DataStore w))]> (AllFields w).
Proof.
  intros HF. unfold MetaData.create_array.
  erewrite bind_Ret by (apply (MetaData_create_new w F HF)).
  rewrite bool_decide_eq_true_2 by discriminate.
  set (a := new_addr (DataStore w)).
  change (mkWorld (DimStore w) (<[a := mkData F ∅ 0 []]> (DataStore w))
                  (GroupStore w) (AllDims w) (<[F := Some a]> (AllFields w))
                  (AllGroups w) (ErrLog w))
    with (put_Data a (mkData F ∅ 0 [])
                   (set_AllFields (<[F := Some a]> (AllFields w)) w)).
  erewrite bind_Ret by apply update_put.
  erewrite bind_Ret by apply update_put.
  unfold MetaData.set_NDims, MetaData.set_DimNames.
  cbn [FieldName MetaMap NDims DimNames].
  do 6 add_fresh_entry.
  eexists _, _. split; [reflexivity|].
  split; [apply put_Data_lookup|].
  split; [apply lookup_insert_eq|reflexivity].
Qed.

(** C9: the array form of [create] stores [NumDims] and [Dimensions] as
    given, without comparing them; [getDimNames] then reads [NumDims]
    elements of the stored vector, which is within bounds exactly when
    the vector has at least [NumDims] elements. *)
Theorem getDimNames_reads_NumDims_names (w : World) (F : string)
        (Description Units StdName : string)
        (ValidMin ValidMax FillValue : Any) (NumDims : Z)
        (Dimensions Out : list string) :
  fst (MetaData.has F w) = Ret false ->
  exists a w1 d,
    MetaData.create_array F Description Units StdName ValidMin ValidMax
                          FillValue NumDims Dimensions w =
      (Ret (Some a), w1) /\
    DataStore w1 !! a = Some d /\
    NDims d = NumDims /\ DimNames d = Dimensions /\
    (Z.of_nat (length Dimensions) < NumDims ->
     MetaData.getDimNames (Some a) Out w1 = (Undefined OutOfBounds, w1)) /\
    (0 < NumDims <= Z.of_nat (length Dimensions) ->
     MetaData.getDimNames (Some a) Out w1 =
       (Ret (0, take (Z.to_nat NumDims) Dimensions), w1)) /\
    (NumDims <= 0 ->
     MetaData.getDimNames (Some a) Out w1 = (Ret (0, []), w1)).
Proof.
  intros H. apply has_false_inv in H.
  destruct (MetaData_create_array_new w F Description Units StdName
              ValidMin ValidMax FillValue NumDims Dimensions H)
    as (w1 & entries & Hc & Ha & _ & _).
  eexists _, w1, _. split; [exact Hc|]. split; [exact Ha|].
  split; [reflexivity|]. split; [reflexivity|].
  rewrite (getDimNames_spec w1 _ _ Out Ha). cbn [NDims DimNames].
  split; [|split]; intros Hn.
  - destruct (Z.ltb_spec 0 NumDims); [|lia].
    destruct (Z.leb_spec NumDims (Z.of_nat (length Dimensions))); [lia|].
    reflexivity.
  - destruct (Z.ltb_spec 0 NumDims); [|lia].
    destruct (Z.leb_spec NumDims (Z.of_nat (length Dimensions))); [|lia].
    reflexivity.
  - destruct (Z.ltb_spec 0 NumDims); [lia|]. reflexivity.
Qed.

(** *** Groups *)

Lemma MetaData_destroy_existing (w : World) (F : string)
      (p : option positive) :
  AllFields w !! F = Some p ->
  MetaData.destroy F w = (Ret 0, set_AllFields (delete F (AllFields w)) w).
Proof.
  intros HF. unfold MetaData.destroy, MetaData.has, map_erase. cpp_simpl.
  rewrite (map_contains_Some F (AllFields w) p HF). wsimpl.
  rewrite (map_contains_Some F (AllFields w) p HF). reflexivity.
Qed.

Lemma MetaData_destroy_inv (w w' : World) (F : string) :
  MetaData.destroy F w = (Ret 0, w') ->
  w' = set_AllFields (delete F (AllFields w)) w.
Proof.
  destruct (AllFields w !! F) as [p|] eqn:HF.
  - rewrite (MetaData_destroy_existing w F p HF). congruence.
  - unfold MetaData.destroy, MetaData.has. cpp_simpl.
    rewrite (proj2 (map_contains_false F (AllFields w)) HF).
    wsimpl. discriminate.
Qed.

Lemma MetaData_get_missing (w : World) (F : string) :
  AllFields w !! F = None ->
  MetaData.get F w = (Ret None, add_log (FieldGetMissing F) w).
Proof.
  intros HF. unfold MetaData.get, MetaData.has. cpp_simpl.
  rewrite (proj2 (map_contains_false F (AllFields w)) HF). reflexivity.
Qed.

Lemma add_log_neq (msg : LogMsg) (w : World) : add_log msg w <> w.
Proof.
  intros H. apply (f_equal ErrLog) in H. unfold add_log in H.
  cbn [ErrLog] in H. apply (f_equal (@length LogMsg)) in H.
  cbn [length] in H. lia.
Qed.

Section Groups.

Variables (w : World) (G : positive) (g : GroupObject) (F : string).
Hypothesis HG : GroupStore w !! G = Some g.

Lemma hasField_spec :
  MetaGroup.hasField (Some G) F w = (Ret (bool_decide (F ∈ Fields g)), w).
Proof. unfold MetaGroup.hasField. cpp_simpl. rewrite HG. reflexivity. Qed.

Lemma getField_not_member :
  F ∉ Fields g ->
  MetaGroup.getField (Some G) F w =
    (Ret None, add_log (GroupGetNotMember F (GrpName g)) w).
Proof.
  intros HF. unfold MetaGroup.getField.
  erewrite bind_Ret by apply hasField_spec.
  rewrite bool_decide_eq_false_2 by exact HF.
  cpp_simpl. rewrite HG. reflexivity.
Qed.

Lemma getField_member :
  F ∈ Fields g ->
  MetaGroup.getField (Some G) F w = MetaData.get F w.
Proof.
  intros HF. unfold MetaGroup.getField.
  erewrite bind_Ret by apply hasField_spec.
  rewrite bool_decide_eq_true_2 by exact HF. reflexivity.
Qed.

(** C2: adding a field that is not in the field registry to a group
    reports the error (status -2 and a log message) and nevertheless
    inserts the name, so that [hasField] is true afterwards. *)
Theorem addField_unregistered_still_inserts :
  fst (MetaData.has F w) = Ret false ->
  exists w',
    MetaGroup.addField (Some G) F w = (Ret (-2), w') /\
    ErrLog w' = GroupAddUndefinedField F (GrpName g) :: ErrLog w /\
    GroupStore w' !! G = Some (mkGroup (GrpName g) ({[F]} ∪ Fields g)) /\
    fst (MetaGroup.hasField (Some G) F w') = Ret true.
Proof.
  intros Hhas. apply has_false_inv in Hhas.
  unfold MetaGroup.addField, MetaData.has, MetaGroup.hasField.
  cpp_simpl. rewrite (proj2 (map_contains_false _ _) Hhas). wsimpl.
  rewrite HG. wsimpl. rewrite HG.
  eexists. split; [reflexivity|]. wsimpl.
  split; [reflexivity|]. rewrite lookup_insert_eq.
  split; [reflexivity|]. wsimpl.
  f_equal. apply bool_decide_eq_true. set_solver.
Qed.

(** C8: [getField] fails at the level of the group (null result and the
    message that the field is not in the group) exactly when the name is
    not a member, whatever the field registry holds.  For a member the
    result is that of [MetaData::get]: when the record is not (or no
    longer) registered this is a null result with the registry's own
    message, while [hasField] still answers true. *)
Theorem getField_failure_modes :
  (F ∉ Fields g ->
   MetaGroup.getField (Some G) F w =
     (Ret None, add_log (GroupGetNotMember F (GrpName g)) w)) /\
  (snd (MetaGroup.getField (Some G) F w) =
     add_log (GroupGetNotMember F (GrpName g)) w <-> F ∉ Fields g) /\
  (F ∈ Fields g ->
   MetaGroup.getField (Some G) F w = MetaData.get F w) /\
  (F ∈ Fields g -> fst (MetaData.has F w) = Ret false ->
   MetaGroup.getField (Some G) F w =
     (Ret None, add_log (FieldGetMissing F) w) /\
   fst (MetaGroup.hasField (Some G) F (add_log (FieldGetMissing F) w))
     = Ret true) /\
  (F ∈ Fields g ->
   forall w', MetaData.destroy F w = (Ret 0, w') ->
     MetaGroup.getField (Some G) F w' =
       (Ret None, add_log (FieldGetMissing F) w') /\
     fst (MetaGroup.hasField (Some G) F (add_log (FieldGetMissing F) w'))
       = Ret true).
Proof.
  split; [exact getField_not_member|].
  split.
  { split.
    - intros Hsnd Hin. rewrite (getField_member Hin) in Hsnd.
      destruct (AllFields w !! F) as [p|] eqn:HF.
      + rewrite (MetaData_get_found w F p HF) in Hsnd. cbn [snd] in Hsnd.
        symmetry in Hsnd. exact (add_log_neq _ _ Hsnd).
      + rewrite (MetaData_get_missing w F HF) in Hsnd. cbn [snd] in Hsnd.
        apply (f_equal ErrLog) in Hsnd. unfold add_log in Hsnd.
        cbn [ErrLog] in Hsnd. discriminate Hsnd.
    - intros Hnin. rewrite (getField_not_member Hnin). reflexivity. }
  split; [exact getField_member|].
  split.
  - intros Hin Hhas. apply has_false_inv in Hhas.
    rewrite (getField_member Hin), (MetaData_get_missing w F Hhas).
    split; [reflexivity|].
    unfold MetaGroup.hasField. cpp_simpl. rewrite HG. wsimpl.
    rewrite bool_decide_eq_true_2 by exact Hin. reflexivity.
  - intros Hin w' Hd. apply MetaData_destroy_inv in Hd. subst w'.
    unfold MetaGroup.getField, MetaGroup.hasField. cpp_simpl.
    rewrite HG. wsimpl.
    rewrite bool_decide_eq_true_2 by exact Hin. wsimpl.
    rewrite (MetaData_get_missing _ F) by (wsimpl; apply lookup_delete_eq).
    wsimpl. split; reflexivity.
Qed.

End Groups.

(** *** Clearing the registries *)

Lemma MetaGroup_destroy_existing (w : World) (N : string)
      (p : option positive) :
  AllGroups w !! N = Some p ->
  MetaGroup.destroy N w = (Ret 0, set_AllGroups (delete N (AllGroups w)) w).
Proof.
  intros HN. unfold MetaGroup.destroy, MetaGroup.has, map_erase. cpp_simpl.
  rewrite (map_contains_Some N (AllGroups w) p HN). wsimpl.
  rewrite (map_contains_Some N (AllGroups w) p HN). reflexivity.
Qed.

(** C5 (amended): [MetaDim::clear] and [MetaData::clear] empty their own
    registry and leave everything else alone.  [MetaGroup] has no [clear];
    a group goes away by [destroy], which again touches nothing else.
    Only [MetaDim] has a function that reports the number of entries. *)
Theorem clear_resets_one_registry (w : World) :
  (exists w1,
      MetaDim.clear w = (Ret tt, w1) /\
      fst (MetaDim.getNumDefinedDims w1) = Ret 0 /\
      (forall n, fst (MetaDim.has n w1) = Ret false) /\
      AllFields w1 = AllFields w /\ AllGroups w1 = AllGroups w /\
      w1 = set_AllDims ∅ w) /\
  (exists w2,
      MetaData.clear w = (Ret tt, w2) /\
      size (AllFields w2) = 0%nat /\
      (forall n, fst (MetaData.has n w2) = Ret false) /\
      AllDims w2 = AllDims w /\ AllGroups w2 = AllGroups w /\
      w2 = set_AllFields ∅ w) /\
  (forall n, fst (MetaGroup.has n w) = Ret true ->
    exists w3,
      MetaGroup.destroy n w = (Ret 0, w3) /\
      fst (MetaGroup.has n w3) = Ret false /\
      AllDims w3 = AllDims w /\ AllFields w3 = AllFields w /\
      w3 = set_AllGroups (delete n (AllGroups w)) w).
Proof.
  split; [|split].
  - eexists. split; [reflexivity|]. split; [reflexivity|].
    split; [|repeat split]. intros n.
    unfold MetaDim.has, gets. wsimpl.
    f_equal; apply map_contains_false; apply lookup_empty.
  - eexists. split; [reflexivity|]. split; [reflexivity|].
    split; [|repeat split]. intros n.
    unfold MetaData.has, gets. wsimpl.
    f_equal; apply map_contains_false; apply lookup_empty.
  - intros n Hn. unfold MetaGroup.has, gets in Hn. cbn [fst] in Hn.
    assert (Hc : map_contains n (AllGroups w) = true) by congruence.
    apply map_contains_true in Hc. destruct Hc as [p Hp].
    eexists. split; [apply (MetaGroup_destroy_existing w n p Hp)|].
    split; [|repeat split].
    unfold MetaGroup.has, gets. wsimpl.
    f_equal; apply map_contains_false; apply lookup_delete_eq.
Qed.

(** What a call of the [MetaGroup] interface does to [AllGroups]: [create]
    adds at most the one name, [destroy] removes at most the one name, and
    no other member function changes the map. *)
Ltac split_matches :=
  repeat (wsimpl;
          match goal with
          | |- context [match ?x with _ => _ end] => is_var x; destruct x
          | |- context [match ?m !! ?k with _ => _ end] =>
              destruct (m !! k) eqn:?
          | |- context [if ?b then _ else _] => destruct b eqn:?
          end).

Lemma AllGroups_run (c : MetaGroupCall) (w : World) :
  AllGroups (run c w) =
    match c with
    | CallCreate Name =>
        if map_contains Name (AllGroups w) then AllGroups w
        else <[Name := Some (new_addr (GroupStore w))]> (AllGroups w)
    | CallDestroy Name => delete Name (AllGroups w)
    | _ => AllGroups w
    end.
Proof.
  destruct c; unfold run.
  - unfold MetaGroup.create, MetaGroup.has, MetaGroup.AllGroups_assign.
    cpp_simpl. destruct (map_contains Name (AllGroups w)); wsimpl.
    + reflexivity.
    + rewrite !lookup_insert_eq. reflexivity.
  - unfold MetaGroup.destroy, MetaGroup.has, map_erase. cpp_simpl.
    destruct (map_contains Name (AllGroups w)) eqn:E; wsimpl.
    + rewrite E. reflexivity.
    + symmetry. apply delete_id, map_contains_false, E.
  - unfold MetaGroup.get, MetaGroup.has, MetaGroup.AllGroups_at, map_at.
    cpp_simpl. destruct (map_contains Name (AllGroups w)) eqn:E; wsimpl.
    + apply map_contains_true in E. destruct E as [p ->]. reflexivity.
    + reflexivity.
  - reflexivity.
  - unfold MetaGroup.hasField. cpp_simpl. split_matches; reflexivity.
  - unfold MetaGroup.addField, MetaData.has. cpp_simpl.
    split_matches; reflexivity.
  - unfold MetaGroup.getField, MetaGroup.hasField, MetaData.get,
      MetaData.has, MetaData.AllFields_at, map_at.
    cpp_simpl. split_matches; reflexivity.
  - unfold MetaGroup.removeField, MetaGroup.hasField, set_erase.
    cpp_simpl. split_matches; reflexivity.
  - unfold MetaGroup.getFieldList. cpp_simpl. split_matches; reflexivity.
Qed.

Lemma no_call_empties_two_groups (c : MetaGroupCall) (w : World)
      (A B : string) :
  A <> B ->
  is_Some (AllGroups w !! A) -> is_Some (AllGroups w !! B) ->
  is_Some (AllGroups (run c w) !! A) \/ is_Some (AllGroups (run c w) !! B).
Proof.
  intros Hne HA HB. rewrite AllGroups_run. destruct c; try (left; exact HA).
  - destruct (map_contains Name (AllGroups w)); [left; exact HA|].
    left. destruct (decide (Name = A)) as [->|Hn].
    + rewrite lookup_insert_eq. eauto.
    + rewrite lookup_insert_ne by exact Hn. exact HA.
  - destruct (decide (Name = A)) as [->|Hn].
    + right. rewrite lookup_delete_ne by exact Hne. exact HB.
    + left. rewrite lookup_delete_ne by exact Hn. exact HA.
Qed.

Section Dimensions.

Variables (w : World) (D : string).

Theorem create_conflicting_dim_rejected (p : addr) (d : DimObject) (L2 : I4) :
  AllDims w !! D = Some (Some p) ->
  DimStore w !! p = Some d ->
  L2 <> Length d ->
  exists w',
    MetaDim.create D L2 w = (Ret None, w') /\
    w' = mkWorld (DimStore w) (DataStore w) (GroupStore w) (AllDims w)
                 (AllFields w) (AllGroups w)
                 (DimLengthConflict D :: ErrLog w) /\
    fst (MetaDim.get D w') = Ret (Some p) /\
    fst (MetaDim.getLength (Some p) w') = Ret (Length d) /\
    fst (MetaDim.getDimLength D w') = Ret (Length d).
Proof.
  intros HD Hp HL. eexists. split; [|split; [reflexivity|]].
  - unfold MetaDim.create.
    erewrite bind_Ret by reflexivity.
    erewrite bind_Ret by reflexivity. simpl.
    rewrite (map_contains_Some D (AllDims w) (Some p) HD).
    erewrite bind_Ret by (apply MetaDim_get_found; exact HD).
    erewrite bind_Ret by reflexivity.
    simpl. rewrite (delete_insert_id _ _ _ (new_addr_fresh (DimStore w))).
    unfold bind, deref. simpl. rewrite Hp.
    destruct (Z.eqb_spec (Length d) L2) as [E|E]; [congruence|]. simpl.
    unfold bind, LOG_ERROR, modify, ret. simpl. reflexivity.
  - split; [|split].
    + erewrite MetaDim_get_found; [reflexivity|exact HD].
    + unfold MetaDim.getLength, bind, deref. simpl. rewrite Hp. reflexivity.
    + unfold MetaDim.getDimLength, MetaDim.has, MetaDim.AllDims_at, map_at.
      cpp_simpl.
      rewrite (map_contains_Some D (AllDims w) (Some p) HD).
      wsimpl. rewrite HD. wsimpl.
      rewrite Hp. reflexivity.
Qed.

(** C4 (amended): for a name that is not yet defined, two calls of
    [create] with the same arguments return the same dimension, the
    second call changes nothing, and the number of defined dimensions
    grows by exactly one. *)
Theorem create_dim_twice_same_entity (L : Z) :
  fst (MetaDim.has D w) = Ret false ->
  Z.of_nat (size (AllDims w)) < 2 ^ 31 - 1 ->
  exists a w1 w2 n,
    MetaDim.create D L w = (Ret (Some a), w1) /\
    MetaDim.create D L w1 = (Ret (Some a), w2) /\
    w2 = w1 /\
    fst (MetaDim.getNumDefinedDims w) = Ret n /\
    fst (MetaDim.getNumDefinedDims w1) = Ret (n + 1) /\
    fst (MetaDim.getNumDefinedDims w2) = Ret (n + 1).
Proof.
  intros Hhas Hsize.
  assert (HD : AllDims w !! D = None).
  { apply map_contains_false. unfold MetaDim.has, gets in Hhas.
    simpl in Hhas. congruence. }
  eexists _, _, _, _. split; [apply MetaDim_create_new; exact HD|].
  split.
  { apply (MetaDim_create_existing _ D _ (mkDim D L)); wsimpl.
    - apply lookup_insert_eq.
    - apply lookup_insert_eq. }
  split; [reflexivity|].
  unfold MetaDim.getNumDefinedDims, gets. wsimpl.
  rewrite (map_size_insert_None _ _ _ HD).
  rewrite !to_int_small by lia.
  split; [reflexivity|]. split; f_equal; lia.
Qed.

End Dimensions.

(** * Concrete runs *)

Ltac by_compute := vm_compute; reflexivity.

(** C1: reading the [I8] entry ["E"] of the record at address 1 with the
    [I4] overload does not return a status: the cast throws.  And an
    [addEntry] under a name that is taken is not followed by a successful
    read of the new value. *)
Lemma getEntry_other_kind_throws :
  fst (MetaData.getEntry KI4 (Some 1%positive) "E" 0 w_entry)
    = Throws bad_any_cast /\
  fst ((MetaData.addEntry (Some 1%positive) "E" (AnyI4 7) ;;
        MetaData.getEntry KI4 (Some 1%positive) "E" 0) w_entry)
    = Throws bad_any_cast.
Proof. split; by_compute. Qed.

Lemma entry_round_trip_exact_kind_witness :
  fst (MetaData.addEntry (Some 1%positive) "FillValue"
         (make_any KR8 (S754_zero true)) w_record) = Ret 0 /\
  exists w1,
    MetaData.addEntry (Some 1%positive) "FillValue"
      (make_any KR8 (S754_zero true)) w_record = (Ret 0, w1) /\
    (forall v0 : ctype KR8,
        MetaData.getEntry KR8 (Some 1%positive) "FillValue" v0 w1
        = (Ret (0, S754_zero true), w1)) /\
    (forall (k' : Kind) (v0 : ctype k'),
        k' <> KR8 ->
        MetaData.getEntry k' (Some 1%positive) "FillValue" v0 w1
        = (Throws bad_any_cast, w1)).
Proof.
  split; [by_compute|].
  apply (entry_round_trip_exact_kind w_record 1 "FillValue" KR8
           (S754_zero true)).
  by_compute.
Defined.

Lemma addField_unregistered_still_inserts_witness :
  GroupStore w_dangling !! 1%positive = Some (mkGroup "G" {["F"]}) /\
  fst (MetaData.has "U" w_dangling) = Ret false /\
  exists w',
    MetaGroup.addField (Some 1%positive) "U" w_dangling = (Ret (-2), w') /\
    ErrLog w' = GroupAddUndefinedField "U" "G" :: ErrLog w_dangling /\
    GroupStore w' !! 1%positive
      = Some (mkGroup "G" ({["U"]} ∪ {["F"]})) /\
    fst (MetaGroup.hasField (Some 1%positive) "U" w') = Ret true.
Proof.
  assert (H1 : GroupStore w_dangling !! 1%positive
               = Some (mkGroup "G" {["F"]})) by by_compute.
  assert (H2 : fst (MetaData.has "U" w_dangling) = Ret false) by by_compute.
  split; [exact H1|]. split; [exact H2|].
  exact (addField_unregistered_still_inserts w_dangling 1 _ "U" H1 H2).
Defined.

Lemma create_conflicting_dim_rejected_witness :
  AllDims w_dim !! "D" = Some (Some 1%positive) /\
  DimStore w_dim !! 1%positive = Some (mkDim "D" 5) /\
  7 <> 5 /\
  exists w',
    MetaDim.create "D" 7 w_dim = (Ret None, w') /\
    w' = mkWorld (DimStore w_dim) (DataStore w_dim) (GroupStore w_dim)
                 (AllDims w_dim) (AllFields w_dim) (AllGroups w_dim)
                 (DimLengthConflict "D" :: ErrLog w_dim) /\
    fst (MetaDim.get "D" w') = Ret (Some 1%positive) /\
    fst (MetaDim.getLength (Some 1%positive) w') = Ret 5 /\
    fst (MetaDim.getDimLength "D" w') = Ret 5.
Proof.
  split; [by_compute|]. split; [by_compute|]. split; [lia|].
  exact (create_conflicting_dim_rejected w_dim "D" 1 (mkDim "D" 5) 7
           ltac:(by_compute) ltac:(by_compute) ltac:(cbn; lia)).
Defined.

(** C4: in a state where ["D"] is already defined with length 5 (one
    dimension in all), two calls [create("D", 5)] return the same
    dimension but add none; and two calls [create("D", 7)] both return
    [nullptr] and add none.  In either case the number of defined
    dimensions is 1 before and 1 after. *)
Lemma create_existing_dim_twice_adds_none :
  fst (MetaDim.getNumDefinedDims w_dim) = Ret 1 /\
  (exists p w1 w2,
      MetaDim.create "D" 5 w_dim = (Ret p, w1) /\
      MetaDim.create "D" 5 w1 = (Ret p, w2) /\
      fst (MetaDim.getNumDefinedDims w2) = Ret 1) /\
  (exists w1 w2,
      MetaDim.create "D" 7 w_dim = (Ret None, w1) /\
      MetaDim.create "D" 7 w1 = (Ret None, w2) /\
      fst (MetaDim.getNumDefinedDims w2) = Ret 1).
Proof.
  split; [by_compute|]. split.
  - exists (Some 1%positive), w_dim, w_dim.
    assert (H : MetaDim.create "D" 5 w_dim = (Ret (Some 1%positive), w_dim)).
    { apply (MetaDim_create_existing w_dim "D" 1 (mkDim "D" 5)); by_compute. }
    repeat split; try exact H; by_compute.
  - exists (add_log (DimLengthConflict "D") w_dim),
      (add_log (DimLengthConflict "D")
         (add_log (DimLengthConflict "D") w_dim)).
    split; [by_compute|]. split; by_compute.
Qed.

Lemma create_dim_twice_same_entity_witness :
  fst (MetaDim.has "NCells" w_dim) = Ret false /\
  Z.of_nat (size (AllDims w_dim)) < 2 ^ 31 - 1 /\
  exists a w1 w2 n,
    MetaDim.create "NCells" 100 w_dim = (Ret (Some a), w1) /\
    MetaDim.create "NCells" 100 w1 = (Ret (Some a), w2) /\
    w2 = w1 /\
    fst (MetaDim.getNumDefinedDims w_dim) = Ret n /\
    fst (MetaDim.getNumDefinedDims w1) = Ret (n + 1) /\
    fst (MetaDim.getNumDefinedDims w2) = Ret (n + 1).
Proof.
  split; [by_compute|]. split; [by_compute|].
  apply (create_dim_twice_same_entity w_dim "NCells" 100); by_compute.
Defined.

(** C5: in a state with the groups ["A"] and ["B"], no member function of
    [MetaGroup] leaves a state in which both are gone: the class has
    nothing that does what [clear] does for the other two registries. *)
Lemma MetaGroup_has_no_clear :
  fst (MetaGroup.has "A" w_populated) = Ret true /\
  fst (MetaGroup.has "B" w_populated) = Ret true /\
  ~ exists c : MetaGroupCall,
      fst (MetaGroup.has "A" (run c w_populated)) = Ret false /\
      fst (MetaGroup.has "B" (run c w_populated)) = Ret false.
Proof.
  split; [by_compute|]. split; [by_compute|].
  intros (c & HA & HB).
  unfold MetaGroup.has, gets in HA, HB. cbn [fst] in HA, HB.
  assert (HA' : map_contains "A" (AllGroups (run c w_populated)) = false)
    by congruence.
  assert (HB' : map_contains "B" (AllGroups (run c w_populated)) = false)
    by congruence.
  apply map_contains_false in HA', HB'.
  destruct (no_call_empties_two_groups c w_populated "A" "B") as [[x Hx]|[x Hx]].
  - discriminate.
  - exists (Some 1%positive). by_compute.
  - exists (Some 2%positive). by_compute.
  - congruence.
  - congruence.
Qed.

Lemma clear_resets_one_registry_witness :
  (exists w1,
      MetaDim.clear w_populated = (Ret tt, w1) /\
      fst (MetaDim.getNumDefinedDims w1) = Ret 0 /\
      (forall n, fst (MetaDim.has n w1) = Ret false) /\
      AllFields w1 = AllFields w_populated /\
      AllGroups w1 = AllGroups w_populated /\
      w1 = set_AllDims ∅ w_populated) /\
  (exists w2,
      MetaData.clear w_populated = (Ret tt, w2) /\
      size (AllFields w2) = 0%nat /\
      (forall n, fst (MetaData.has n w2) = Ret false) /\
      AllDims w2 = AllDims w_populated /\
      AllGroups w2 = AllGroups w_populated /\
      w2 = set_AllFields ∅ w_populated) /\
  (forall n, fst (MetaGroup.has n w_populated) = Ret true ->
    exists w3,
      MetaGroup.destroy n w_populated = (Ret 0, w3) /\
      fst (MetaGroup.has n w3) = Ret false /\
      AllDims w3 = AllDims w_populated /\
      AllFields w3 = AllFields w_populated /\
      w3 = set_AllGroups (delete n (AllGroups w_populated)) w_populated).
Proof. exact (clear_resets_one_registry w_populated). Defined.

Lemma duplicate_field_create_rejected_witness :
  exists r1 w1 p,
    MetaData.create "F" World_init = (Ret r1, w1) /\
    MetaData.get "F" w1 = (Ret p, w1) /\
    (fst (MetaData.has "F" World_init) = Ret false ->
     exists a, r1 = Some a /\ p = Some a /\
               DataStore w1 !! a = Some (mkData "F" ∅ 0 [])) /\
    let w2 := add_log (FieldAlreadyExists "F") w1 in
    let w3 := add_log (FieldCreateFailed "F") w2 in
    MetaData.create "F" w1 = (Ret None, w2) /\
    MetaData.create_array "F" "d" "u" "s" (AnyI4 0) (AnyI4 9) (AnyI4 (-1))
                          1 ["D"] w1 = (Ret None, w3) /\
    MetaData.create_pairs "F" [("Meta1", AnyI4 1)] w1 = (Ret None, w3) /\
    MetaData.get "F" w2 = (Ret p, w2) /\
    MetaData.get "F" w3 = (Ret p, w3) /\
    DataStore w2 = DataStore w1 /\ DataStore w3 = DataStore w1.
Proof.
  exact (duplicate_field_create_rejected World_init "F" "d" "u" "s"
           (AnyI4 0) (AnyI4 9) (AnyI4 (-1)) 1 ["D"] [("Meta1", AnyI4 1)]).
Defined.

Lemma duplicate_entry_rejected_then_replaceable_witness :
  fst (MetaData.addEntry (Some 1%positive) "E" (AnyI4 1) w_record) = Ret 0 /\
  exists d w',
    DataStore w_record !! 1%positive = Some d /\
    (let* r1 := MetaData.addEntry (Some 1%positive) "E" (AnyI4 1) in
     let* r2 := MetaData.addEntry (Some 1%positive) "E" (AnyI4 2) in
     let* g1 := MetaData.getEntry KI4 (Some 1%positive) "E" 0 in
     let* r3 := MetaData.removeEntry (Some 1%positive) "E" in
     let* r4 := MetaData.addEntry (Some 1%positive) "E" (AnyI4 2) in
     let* g2 := MetaData.getEntry KI4 (Some 1%positive) "E" 0 in
     ret (r1, r2, g1, r3, r4, g2)) w_record
    = (Ret (0, -1, (0, 1), 0, 0, (0, 2)), w') /\
    ErrLog w' = EntryAlreadyExists "E" (FieldName d) :: ErrLog w_record.
Proof.
  assert (H : fst (MetaData.addEntry (Some 1%positive) "E" (AnyI4 1) w_record)
              = Ret 0) by by_compute.
  split; [exact H|].
  exact (duplicate_entry_rejected_then_replaceable w_record 1 0 H).
Defined.

Lemma getField_failure_modes_witness :
  GroupStore w_dangling !! 1%positive = Some (mkGroup "G" {["F"]}) /\
  "F" ∈ ({["F"]} : gset string) /\
  fst (MetaData.has "F" w_dangling) = Ret false /\
  MetaGroup.getField (Some 1%positive) "F" w_dangling =
    (Ret None, add_log (FieldGetMissing "F") w_dangling) /\
  fst (MetaGroup.hasField (Some 1%positive) "F"
         (add_log (FieldGetMissing "F") w_dangling)) = Ret true.
Proof.
  assert (H1 : GroupStore w_dangling !! 1%positive
               = Some (mkGroup "G" {["F"]})) by by_compute.
  assert (H2 : "F" ∈ ({["F"]} : gset string)) by set_solver.
  assert (H3 : fst (MetaData.has "F" w_dangling) = Ret false) by by_compute.
  split; [exact H1|]. split; [exact H2|]. split; [exact H3|].
  exact (proj1 (proj2 (proj2 (proj2
           (getField_failure_modes w_dangling 1 _ "F" H1)))) H2 H3).
Defined.

Lemma getDimNames_reads_NumDims_names_witness :
  fst (MetaData.has "Temperature" World_init) = Ret false /\
  exists a w1 d,
    MetaData.create_array "Temperature" "d" "u" "s" (AnyR8 (S754_zero false))
      (AnyR8 (S754_zero false)) (AnyR8 (S754_zero true)) 2 ["NCells"]
      World_init = (Ret (Some a), w1) /\
    DataStore w1 !! a = Some d /\
    NDims d = 2 /\ DimNames d = ["NCells"] /\
    (Z.of_nat (length ["NCells"]) < 2 ->
     MetaData.getDimNames (Some a) [] w1 = (Undefined OutOfBounds, w1)) /\
    (0 < 2 <= Z.of_nat (length ["NCells"]) ->
     MetaData.getDimNames (Some a) [] w1 =
       (Ret (0, take (Z.to_nat 2) ["NCells"]), w1)) /\
    (2 <= 0 ->
     MetaData.getDimNames (Some a) [] w1 = (Ret (0, []), w1)).
Proof.
  assert (H : fst (MetaData.has "Temperature" World_init) = Ret false)
    by by_compute.
  split; [exact H|].
  exact (getDimNames_reads_NumDims_names World_init "Temperature" "d" "u" "s"
           (AnyR8 (S754_zero false)) (AnyR8 (S754_zero false))
           (AnyR8 (S754_zero true)) 2 ["NCells"] [] H).
Defined.

Lemma bare_create_value_initialised_witness :
  fst (MetaData.has "code" World_init) = Ret false /\
  exists a w1,
    MetaData.create "code" World_init = (Ret (Some a), w1) /\
    DataStore w1 !! a = Some (mkData "code" ∅ 0 []) /\
    fst (MetaData.getNumDims (Some a) w1) = Ret 0 /\
    (forall Dimensions : list string,
        fst (MetaData.getDimNames (Some a) Dimensions w1) = Ret (0, [])) /\
    (forall e : string, fst (MetaData.hasEntry (Some a) e w1) = Ret false).
Proof.
  assert (H : fst (MetaData.has "code" World_init) = Ret false) by by_compute.
  split; [exact H|].
  exact (bare_create_value_initialised World_init "code" H).
Defined.

(** * Frames: what a call leaves alone *)

Lemma keeps_bind {A B X} (view : World -> X) (m : M A) (f : A -> M B) :
  keeps view m -> (forall a, keeps view (f a)) -> keeps view (bind m f).
Proof.
  intros Hm Hf w. unfold bind. specialize (Hm w).
  destruct (m w) as [[a|e|u] w']; cbn [snd] in *; try exact Hm.
  rewrite (Hf a w'). exact Hm.
Qed.

Lemma keeps_ret {A X} (view : World -> X) (a : A) : keeps view (ret a).
Proof. intros w. reflexivity. Qed.

Lemma keeps_weaken {A X Y} (view : World -> X) (g : X -> Y) (m : M A) :
  keeps view m -> keeps (fun w => g (view w)) m.
Proof. intros H w. rewrite (H w). reflexivity. Qed.

(** The three [get] functions change nothing but the log: the subscript
    operator is only reached for a key that is present. *)
Lemma MetaDim_get_keeps (N : string) : keeps all_but_log (MetaDim.get N).
Proof.
  intros w. destruct (AllDims w !! N) as [p|] eqn:H.
  - rewrite (MetaDim_get_found w N p H). reflexivity.
  - unfold MetaDim.get, MetaDim.has. cpp_simpl.
    rewrite (proj2 (map_contains_false N (AllDims w)) H). reflexivity.
Qed.

Lemma MetaData_get_keeps (N : string) : keeps all_but_log (MetaData.get N).
Proof.
  intros w. destruct (AllFields w !! N) as [p|] eqn:H.
  - rewrite (MetaData_get_found w N p H). reflexivity.
  - rewrite (MetaData_get_missing w N H). reflexivity.
Qed.

Lemma MetaGroup_get_keeps (N : string) : keeps all_but_log (MetaGroup.get N).
Proof.
  intros w. destruct (AllGroups w !! N) as [p|] eqn:H.
  - rewrite (MetaGroup_get_found w N p H). reflexivity.
  - unfold MetaGroup.get, MetaGroup.has. cpp_simpl.
    rewrite (proj2 (map_contains_false N (AllGroups w)) H). reflexivity.
Qed.

Lemma MetaDim_getDimLength_keeps (N : string) :
  keeps all_but_log (MetaDim.getDimLength N).
Proof.
  intros w. unfold MetaDim.getDimLength, MetaDim.has, MetaDim.AllDims_at,
    map_at.
  cpp_simpl. destruct (AllDims w !! N) as [p|] eqn:H.
  - rewrite (map_contains_Some N (AllDims w) p H). wsimpl. rewrite H. wsimpl.
    destruct p as [a|]; [destruct (DimStore w !! a)|]; reflexivity.
  - rewrite (proj2 (map_contains_false N (AllDims w)) H). reflexivity.
Qed.

Lemma keeps_part_of_all {A X} (view : World -> X) (m : M A) :
  (forall w w', all_but_log w' = all_but_log w -> view w' = view w) ->
  keeps all_but_log m -> keeps view m.
Proof. intros Hv H w. apply Hv, H. Qed.

Ltac part_of_all :=
  let w := fresh "w" in
  let w' := fresh "w" in
  let H := fresh "H" in
  intros w w' H;
  unfold all_but_log, not_dims, not_fields, not_groups,
    dims_part, fields_part, groups_part in *;
  congruence.

(** A step that is not a sequence: unfold it and look at every case. *)
Ltac keeps_leaf :=
  solve [ let w := fresh "w" in
          intros w;
          unfold all_but_log, not_dims, not_fields, not_groups,
            dims_part, fields_part, groups_part;
          unfold MetaDim.has, MetaDim.AllDims_assign, MetaDim.clear,
            MetaDim.getNumDefinedDims,
            MetaData.has, MetaData.AllFields_assign, MetaData.clear,
            MetaGroup.has, MetaGroup.AllGroups_assign,
            map_erase, set_erase, map_at;
          cpp_simpl; split_matches; reflexivity ].

Ltac keeps_get :=
  apply keeps_part_of_all;
  [ part_of_all
  | first [ apply MetaDim_get_keeps | apply MetaData_get_keeps
          | apply MetaGroup_get_keeps | apply MetaDim_getDimLength_keeps ] ].

Lemma addEntries_keeps {X} (view : World -> X) (Data : shared_ptr)
      (MetaPairs : list (string * Any)) :
  (forall N V, keeps view (MetaData.addEntry Data N V)) ->
  keeps view (MetaData.addEntries Data MetaPairs).
Proof.
  intros H. induction MetaPairs as [|[N V] rest IH]; cbn [MetaData.addEntries].
  - apply keeps_ret.
  - apply keeps_bind; [apply H | intros _; exact IH].
Qed.

Ltac keeps_tac :=
  repeat first
    [ apply keeps_ret
    | keeps_get
    | apply addEntries_keeps; intros ? ?
    | apply keeps_bind; [| intros ?]
    | match goal with
      | |- keeps _ (if ?b then _ else _) => destruct b
      | |- keeps _ (match ?x with _ => _ end) => destruct x
      end
    | keeps_leaf ].

Ltac unfold_api :=
  unfold MetaDim.create, MetaDim.destroy, MetaDim.getLength,
    MetaData.create_array, MetaData.create_pairs, MetaData.create,
    MetaData.destroy, MetaData.getEntry, MetaData.MetaMap_at,
    MetaData.removeEntry, MetaData.addEntry, MetaData.hasEntry,
    MetaData.getNumDims, MetaData.getDimNames,
    MetaGroup.create, MetaGroup.destroy, MetaGroup.getField,
    MetaGroup.removeField, MetaGroup.addField, MetaGroup.hasField,
    MetaGroup.getFieldList.

(** No member function of [MetaDim] touches a field record or a group. *)
Lemma run_dim_keeps (c : MetaDimCall) (w : World) :
  not_dims (run_dim c w) = not_dims w.
Proof.
  destruct c; unfold run_dim;
    match goal with |- _ (snd (?m w)) = _ => revert w;
      change (keeps not_dims m) end;
    unfold_api; keeps_tac.
Qed.

Lemma run_data_keeps (c : MetaDataCall) (w : World) :
  not_fields (run_data c w) = not_fields w.
Proof.
  destruct c; unfold run_data;
    match goal with |- _ (snd (?m w)) = _ => revert w;
      change (keeps not_fields m) end;
    unfold_api; keeps_tac.
Qed.

Lemma run_group_keeps (c : MetaGroupCall) (w : World) :
  not_groups (run c w) = not_groups w.
Proof.
  destruct c; unfold run;
    match goal with |- _ (snd (?m w)) = _ => revert w;
      change (keeps not_groups m) end;
    unfold_api; keeps_tac.
Qed.

(** * Consistency of the static maps is an invariant *)

Section EntryOk.

Context {T : Type} (name : T -> string).




End EntryOk.







(** *** The steps that do change a static map or a registered object *)





















(** X2: in a consistent state a name that [has] reports is resolved by
    [get] to a non-null pointer, without a log message, and the object
    behind it carries that name; this holds for dimensions, field records
    and groups alike. *)
Theorem registered_names_resolve (w : World) (N : string) :
  consistent w ->
  (fst (MetaDim.has N w) = Ret true ->
   exists a d, MetaDim.get N w = (Ret (Some a), w) /\
               DimStore w !! a = Some d /\ DimName d = N) /\
  (fst (MetaData.has N w) = Ret true ->
   exists a d, MetaData.get N w = (Ret (Some a), w) /\
               DataStore w !! a = Some d /\ FieldName d = N) /\
  (fst (MetaGroup.has N w) = Ret true ->
   exists a g, MetaGroup.get N w = (Ret (Some a), w) /\
               GroupStore w !! a = Some g /\ GrpName g = N).
Proof.
  intros (Hd & Hf & Hg).
  split; [|split]; intros H; unfold MetaDim.has, MetaData.has, MetaGroup.has,
    gets in H; cbn [fst] in H;
    match type of H with Ret (map_contains N ?m) = _ =>
      assert (Hc : map_contains N m = true) by congruence end;
    apply map_contains_true in Hc; destruct Hc as [p Hp].
  - specialize (Hd N p Hp). unfold entry_ok in Hd.
    destruct p as [a|]; [|contradiction].
    destruct (DimStore w !! a) as [d|] eqn:Ha; [|contradiction].
    exists a, d. split; [apply MetaDim_get_found; exact Hp|]. split; auto.
  - specialize (Hf N p Hp). unfold entry_ok in Hf.
    destruct p as [a|]; [|contradiction].
    destruct (DataStore w !! a) as [d|] eqn:Ha; [|contradiction].
    exists a, d. split; [apply MetaData_get_found; exact Hp|]. split; auto.
  - specialize (Hg N p Hp). unfold entry_ok in Hg.
    destruct p as [a|]; [|contradiction].
    destruct (GroupStore w !! a) as [g|] eqn:Ha; [|contradiction].
    exists a, g. split; [apply MetaGroup_get_found; exact Hp|]. split; auto.
Qed.

(** X3: in a consistent state two different registered names never
    resolve to the same object: [get] returns different pointers. *)
Theorem registered_names_do_not_alias (w : World) (N1 N2 : string)
        (p : option positive) :
  consistent w -> N1 <> N2 ->
  (fst (MetaDim.get N1 w) = Ret p -> fst (MetaDim.get N2 w) = Ret p ->
   p = None) /\
  (fst (MetaData.get N1 w) = Ret p -> fst (MetaData.get N2 w) = Ret p ->
   p = None) /\
  (fst (MetaGroup.get N1 w) = Ret p -> fst (MetaGroup.get N2 w) = Ret p ->
   p = None).
Proof.
  intros (Hd & Hf & Hg) Hne.
  assert (Hgen : forall {T} (name : T -> string) (st : gmap positive T)
                        (reg : gmap string (option positive)),
             map_Forall (entry_ok name st) reg ->
             forall q1 q2, reg !! N1 = Some q1 -> reg !! N2 = Some q2 ->
                           q1 <> q2).
  { intros T name st reg Hok q1 q2 H1 H2 ->.
    pose proof (Hok N1 q2 H1) as O1. pose proof (Hok N2 q2 H2) as O2.
    unfold entry_ok in O1, O2. destruct q2 as [a|]; [|contradiction].
    destruct (st !! a); [|contradiction]. congruence. }
  split; [|split]; intros H1 H2; destruct p as [a|]; try reflexivity; exfalso.
  - destruct (AllDims w !! N1) as [q1|] eqn:E1;
      [rewrite (MetaDim_get_found w N1 q1 E1) in H1
      |unfold MetaDim.get, MetaDim.has in H1; revert H1; cpp_simpl;
       rewrite (proj2 (map_contains_false _ _) E1); discriminate].
    destruct (AllDims w !! N2) as [q2|] eqn:E2;
      [rewrite (MetaDim_get_found w N2 q2 E2) in H2
      |unfold MetaDim.get, MetaDim.has in H2; revert H2; cpp_simpl;
       rewrite (proj2 (map_contains_false _ _) E2); discriminate].
    cbn [fst] in H1, H2.
    apply (Hgen _ DimName _ _ Hd q1 q2 E1 E2). congruence.
  - destruct (AllFields w !! N1) as [q1|] eqn:E1;
      [rewrite (MetaData_get_found w N1 q1 E1) in H1
      |rewrite (MetaData_get_missing w N1 E1) in H1; discriminate].
    destruct (AllFields w !! N2) as [q2|] eqn:E2;
      [rewrite (MetaData_get_found w N2 q2 E2) in H2
      |rewrite (MetaData_get_missing w N2 E2) in H2; discriminate].
    cbn [fst] in H1, H2.
    apply (Hgen _ FieldName _ _ Hf q1 q2 E1 E2). congruence.
  - destruct (AllGroups w !! N1) as [q1|] eqn:E1;
      [rewrite (MetaGroup_get_found w N1 q1 E1) in H1
      |unfold MetaGroup.get, MetaGroup.has in H1; revert H1; cpp_simpl;
       rewrite (proj2 (map_contains_false _ _) E1); discriminate].
    destruct (AllGroups w !! N2) as [q2|] eqn:E2;
      [rewrite (MetaGroup_get_found w N2 q2 E2) in H2
      |unfold MetaGroup.get, MetaGroup.has in H2; revert H2; cpp_simpl;
       rewrite (proj2 (map_contains_false _ _) E2); discriminate].
    cbn [fst] in H1, H2.
    apply (Hgen _ GrpName _ _ Hg q1 q2 E1 E2). congruence.
Qed.

(** X4: no member function of [MetaDim] changes a field record, a group,
    or the static maps of fields and groups: destroying or clearing
    dimensions leaves the fields that cite them as they are. *)
Theorem MetaDim_calls_leave_fields_and_groups (c : MetaDimCall) (w : World) :
  AllFields (run_dim c w) = AllFields w /\
  DataStore (run_dim c w) = DataStore w /\
  AllGroups (run_dim c w) = AllGroups w /\
  GroupStore (run_dim c w) = GroupStore w.
Proof.
  pose proof (run_dim_keeps c w) as H.
  unfold not_dims, fields_part, groups_part in H.
  repeat split; congruence.
Qed.

(** X5: no member function of [MetaData] changes a dimension, a group,
    or the static maps of dimensions and groups: creating a record with
    dimension names defines no dimension, and destroying a record leaves
    the groups that list it as they are. *)
Theorem MetaData_calls_leave_dims_and_groups (c : MetaDataCall) (w : World) :
  AllDims (run_data c w) = AllDims w /\
  DimStore (run_data c w) = DimStore w /\
  AllGroups (run_data c w) = AllGroups w /\
  GroupStore (run_data c w) = GroupStore w.
Proof.
  pose proof (run_data_keeps c w) as H.
  unfold not_fields, dims_part, groups_part in H.
  repeat split; congruence.
Qed.

(** X6: no member function of [MetaGroup] changes a dimension, a field
    record, or the static maps of dimensions and fields. *)
Theorem MetaGroup_calls_leave_dims_and_fields (c : MetaGroupCall)
        (w : World) :
  AllDims (run c w) = AllDims w /\
  DimStore (run c w) = DimStore w /\
  AllFields (run c w) = AllFields w /\
  DataStore (run c w) = DataStore w.
Proof.
  pose proof (run_group_keeps c w) as H.
  unfold not_groups, dims_part, fields_part in H.
  repeat split; congruence.
Qed.

(** * More about dimensions *)

Lemma has_true_inv {V} (N : string) (m : gmap string V) :
  Ret (A := bool) (map_contains N m) = Ret true -> is_Some (m !! N).
Proof. intros H. apply map_contains_true. congruence. Qed.

Lemma has_false_inv' {V} (N : string) (m : gmap string V) :
  Ret (A := bool) (map_contains N m) = Ret false -> m !! N = None.
Proof. intros H. apply map_contains_false. congruence. Qed.

Lemma MetaDim_getDimLength_found (w : World) (N : string) (a : positive)
      (d : DimObject) :
  AllDims w !! N = Some (Some a) -> DimStore w !! a = Some d ->
  MetaDim.getDimLength N w = (Ret (Length d), w).
Proof.
  intros HN Ha. unfold MetaDim.getDimLength, MetaDim.has, MetaDim.AllDims_at,
    map_at.
  cpp_simpl. rewrite (map_contains_Some N (AllDims w) (Some a) HN). wsimpl.
  rewrite HN. wsimpl. rewrite Ha. rewrite World_eta. reflexivity.
Qed.

Lemma MetaDim_getDimLength_missing (w : World) (N : string) :
  AllDims w !! N = None ->
  MetaDim.getDimLength N w = (Ret (-1), add_log (DimLengthMissing N) w).
Proof.
  intros HN. unfold MetaDim.getDimLength, MetaDim.has. cpp_simpl.
  rewrite (proj2 (map_contains_false N (AllDims w)) HN). reflexivity.
Qed.


Lemma MetaDim_destroy_existing (w : World) (N : string)
      (p : option positive) :
  AllDims w !! N = Some p ->
  MetaDim.destroy N w = (Ret 0, set_AllDims (delete N (AllDims w)) w).
Proof.
  intros HN. unfold MetaDim.destroy, MetaDim.has, map_erase. cpp_simpl.
  rewrite (map_contains_Some N (AllDims w) p HN). wsimpl.
  rewrite (map_contains_Some N (AllDims w) p HN). reflexivity.
Qed.

Lemma MetaDim_destroy_missing (w : World) (N : string) :
  AllDims w !! N = None ->
  MetaDim.destroy N w = (Ret (-1), add_log (DimDestroyMissing N) w).
Proof.
  intros HN. unfold MetaDim.destroy, MetaDim.has. cpp_simpl.
  rewrite (proj2 (map_contains_false N (AllDims w)) HN). reflexivity.
Qed.


(** X8: [MetaDim::destroy] returns 0 exactly when the name was defined
    and -1 otherwise.  On 0 the name is gone, the count reported by
    [getNumDefinedDims] is that of one entry less, and every other
    dimension stays; on -1 only the log changes. *)
Theorem MetaDim_destroy_result (w : World) (N : string) :
  exists r w',
    MetaDim.destroy N w = (Ret r, w') /\
    (r = 0 /\ fst (MetaDim.has N w) = Ret true /\
     fst (MetaDim.has N w') = Ret false /\
     (forall N', N' <> N -> AllDims w' !! N' = AllDims w !! N') /\
     fst (MetaDim.getNumDefinedDims w')
       = Ret (to_int (Z.of_nat (size (AllDims w)) - 1)) /\
     DimStore w' = DimStore w /\ ErrLog w' = ErrLog w
     \/
     r = -1 /\ fst (MetaDim.has N w) = Ret false /\
     w' = add_log (DimDestroyMissing N) w).
Proof.
  destruct (AllDims w !! N) as [p|] eqn:HN.
  - eexists 0, _. split; [apply (MetaDim_destroy_existing w N p HN)|].
    left. unfold MetaDim.has, MetaDim.getNumDefinedDims, gets. wsimpl.
    rewrite (map_contains_Some N (AllDims w) p HN).
    rewrite (proj2 (map_contains_false N _) (lookup_delete_eq _ _)).
    repeat split.
    + intros N' Hne. apply lookup_delete_ne. congruence.
    + assert (Hs : size (AllDims w) = S (size (delete N (AllDims w)))).
      { rewrite <- (map_size_insert_None N p) by apply lookup_delete_eq.
        rewrite insert_delete_id by exact HN. reflexivity. }
      do 2 f_equal. lia.
  - eexists (-1), _. split; [apply (MetaDim_destroy_missing w N HN)|].
    right. unfold MetaDim.has, gets. wsimpl.
    rewrite (proj2 (map_contains_false N _) HN). repeat split.
Qed.

(** X9: in a consistent state [getDimLength(Name)] is [get(Name)]
    followed by [getLength], and for a name that is not defined it logs
    and returns -1. *)
Theorem getDimLength_agrees_with_get (w : World) (N : string) :
  consistent w ->
  (fst (MetaDim.has N w) = Ret false ->
   MetaDim.getDimLength N w = (Ret (-1), add_log (DimLengthMissing N) w)) /\
  (fst (MetaDim.has N w) = Ret true ->
   exists a, MetaDim.get N w = (Ret (Some a), w) /\
             MetaDim.getDimLength N w = MetaDim.getLength (Some a) w).
Proof.
  intros (Hd & _ & _). unfold MetaDim.has, gets. cbn [fst]. split; intros H.
  - apply has_false_inv' in H. apply MetaDim_getDimLength_missing, H.
  - apply has_true_inv in H. destruct H as [p HN].
    pose proof (Hd N p HN) as Hok. unfold entry_ok in Hok.
    destruct p as [a|]; [|contradiction].
    destruct (DimStore w !! a) as [d|] eqn:Ha; [|contradiction].
    exists a. split; [apply MetaDim_get_found, HN|].
    rewrite (MetaDim_getDimLength_found w N a d HN Ha).
    unfold MetaDim.getLength. cpp_simpl. rewrite Ha. reflexivity.
Qed.

(** X10: the -1 of [getDimLength] does not tell an undefined name from a
    defined one: [create] takes any length, and after [create(Name, -1)]
    the name is defined and [getDimLength] returns -1 as it did before. *)
Theorem getDimLength_minus_one_is_ambiguous (w : World) (N : string) :
  fst (MetaDim.has N w) = Ret false ->
  exists a w',
    MetaDim.create N (-1) w = (Ret (Some a), w') /\
    fst (MetaDim.has N w') = Ret true /\
    fst (MetaDim.getDimLength N w') = Ret (-1) /\
    fst (MetaDim.getDimLength N w) = Ret (-1).
Proof.
  unfold MetaDim.has at 1. unfold gets. cbn [fst]. intros H.
  apply has_false_inv' in H.
  eexists _, _. split; [apply (MetaDim_create_new w N (-1) H)|].
  split.
  { unfold MetaDim.has, gets. wsimpl.
    erewrite map_contains_Some by apply lookup_insert_eq. reflexivity. }
  erewrite (MetaDim_getDimLength_found _ N _ (mkDim N (-1)))
    by (wsimpl; apply lookup_insert_eq).
  rewrite (MetaDim_getDimLength_missing w N H). split; reflexivity.
Qed.

(** * More about field records *)

Lemma MetaData_getEntry_keeps (k : Kind) (this : shared_ptr) (N : string)
      (Value : ctype k) :
  keeps all_but_log (MetaData.getEntry k this N Value).
Proof.
  intros w. destruct this as [a|].
  - destruct (DataStore w !! a) as [d|] eqn:Ha.
    + destruct (MetaMap d !! N) as [x|] eqn:HN.
      * rewrite (getEntry_existing w a d N Ha k Value x HN). reflexivity.
      * rewrite (getEntry_missing w a d N Ha k Value HN). reflexivity.
    + unfold MetaData.getEntry, MetaData.hasEntry. cpp_simpl.
      rewrite Ha. reflexivity.
  - reflexivity.
Qed.

(** X11: a member function that only asks ([has], [get], [getLength],
    [getDimLength], [getNumDefinedDims], [hasEntry], [getNumDims],
    [getDimNames], [getEntry], [hasField], [getField], [getFieldList])
    changes nothing but the error log, whatever its arguments and its
    outcome.  In particular the subscript operators in [get] and
    [getEntry] never insert a default entry. *)
Theorem queries_change_only_the_log (c : ApiCall) (w : World) :
  is_query c = true -> all_but_log (step c w) = all_but_log w.
Proof.
  destruct c as [[]|[]|[]]; cbn [is_query]; try discriminate; intros _;
    cbn [step run_dim run_data run];
    match goal with |- _ (snd (?m w)) = _ => revert w;
      change (keeps all_but_log m) end;
    first [ apply MetaDim_get_keeps | apply MetaData_get_keeps
          | apply MetaGroup_get_keeps | apply MetaDim_getDimLength_keeps
          | apply MetaData_getEntry_keeps
          | unfold_api; keeps_tac ].
Qed.

Lemma MetaData_destroy_missing (w : World) (N : string) :
  AllFields w !! N = None ->
  MetaData.destroy N w = (Ret (-1), add_log (FieldDestroyMissing N) w).
Proof.
  intros HN. unfold MetaData.destroy, MetaData.has. cpp_simpl.
  rewrite (proj2 (map_contains_false N (AllFields w)) HN). reflexivity.
Qed.

Lemma MetaGroup_destroy_missing (w : World) (N : string) :
  AllGroups w !! N = None ->
  MetaGroup.destroy N w = (Ret (-1), add_log (GroupDestroyMissing N) w).
Proof.
  intros HN. unfold MetaGroup.destroy, MetaGroup.has. cpp_simpl.
  rewrite (proj2 (map_contains_false N (AllGroups w)) HN). reflexivity.
Qed.

(** X12: [MetaData::destroy] and [MetaGroup::destroy] return 0 exactly
    when the name was registered, and then remove that name and nothing
    else; otherwise they return -1 and only log.  The status -2 of their
    second error branch is never returned. *)
Theorem destroy_returns_0_or_minus_1 (w : World) (N : string) :
  (exists r w',
      MetaData.destroy N w = (Ret r, w') /\
      (r = 0 /\ fst (MetaData.has N w) = Ret true /\
       w' = set_AllFields (delete N (AllFields w)) w /\
       fst (MetaData.has N w') = Ret false
       \/
       r = -1 /\ fst (MetaData.has N w) = Ret false /\
       w' = add_log (FieldDestroyMissing N) w)) /\
  (exists r w',
      MetaGroup.destroy N w = (Ret r, w') /\
      (r = 0 /\ fst (MetaGroup.has N w) = Ret true /\
       w' = set_AllGroups (delete N (AllGroups w)) w /\
       fst (MetaGroup.has N w') = Ret false
       \/
       r = -1 /\ fst (MetaGroup.has N w) = Ret false /\
       w' = add_log (GroupDestroyMissing N) w)).
Proof.
  split.
  - destruct (AllFields w !! N) as [p|] eqn:HN.
    + eexists 0, _. split; [apply (MetaData_destroy_existing w N p HN)|].
      left. unfold MetaData.has, gets. wsimpl.
      rewrite (map_contains_Some N (AllFields w) p HN).
      rewrite (proj2 (map_contains_false N _) (lookup_delete_eq _ _)).
      repeat split.
    + eexists (-1), _. split; [apply (MetaData_destroy_missing w N HN)|].
      right. unfold MetaData.has, gets. wsimpl.
      rewrite (proj2 (map_contains_false N _) HN). repeat split.
  - destruct (AllGroups w !! N) as [p|] eqn:HN.
    + eexists 0, _. split; [apply (MetaGroup_destroy_existing w N p HN)|].
      left. unfold MetaGroup.has, gets. wsimpl.
      rewrite (map_contains_Some N (AllGroups w) p HN).
      rewrite (proj2 (map_contains_false N _) (lookup_delete_eq _ _)).
      repeat split.
    + eexists (-1), _. split; [apply (MetaGroup_destroy_missing w N HN)|].
      right. unfold MetaGroup.has, gets. wsimpl.
      rewrite (proj2 (map_contains_false N _) HN). repeat split.
Qed.

(** X13: a field name that was destroyed can be created again, and the
    new record starts empty: it inherits no entry, dimension count or
    dimension name from the record that had the name before. *)
Theorem recreated_record_starts_empty (w : World) (N : string) :
  fst (MetaData.has N w) = Ret true ->
  exists w1 a w2,
    MetaData.destroy N w = (Ret 0, w1) /\
    MetaData.create N w1 = (Ret (Some a), w2) /\
    DataStore w2 !! a = Some (mkData N ∅ 0 []) /\
    fst (MetaData.get N w2) = Ret (Some a) /\
    (forall e, fst (MetaData.hasEntry (Some a) e w2) = Ret false) /\
    ErrLog w2 = ErrLog w.
Proof.
  unfold MetaData.has at 1. unfold gets. cbn [fst]. intros H.
  apply has_true_inv in H. destruct H as [p HN].
  eexists _, _, _.
  split; [apply (MetaData_destroy_existing w N p HN)|].
  split; [apply MetaData_create_new; wsimpl; apply lookup_delete_eq|].
  wsimpl. split; [apply lookup_insert_eq|].
  split.
  { erewrite MetaData_get_found by (wsimpl; apply lookup_insert_eq).
    reflexivity. }
  split; [|reflexivity].
  intros e. erewrite hasEntry_spec by (wsimpl; apply lookup_insert_eq).
  reflexivity.
Qed.

(** The record that the array form of [create] builds. *)
Lemma MetaData_create_array_record (w : World) (F : string)
      (Description Units StdName : string)
      (ValidMin ValidMax FillValue : Any) (NumDims : Z)
      (Dimensions : list string) :
  AllFields w !! F = None ->
  MetaData.create_array F Description Units StdName ValidMin ValidMax
                        FillValue NumDims Dimensions w =
    (Ret (Some (new_addr (DataStore w))),
     put_Data (new_addr (DataStore w))
       (mkData F
          (<["FillValue" := FillValue]>
             (<["ValidMax" := ValidMax]>
                (<["ValidMin" := ValidMin]>
                   (<["StdName" := AnyString StdName]>
                      (<["Units" := AnyString Units]>
                         (<["Description" := AnyString Description]> ∅))))))
          NumDims Dimensions)
       (set_AllFields (<[F := Some (new_addr (DataStore w))]> (AllFields w))
                      w)).
Proof.
  intros HF. unfold MetaData.create_array.
  erewrite bind_Ret by (apply (MetaData_create_new w F HF)).
  rewrite bool_decide_eq_true_2 by discriminate.
  set (a := new_addr (DataStore w)).
  change (mkWorld (DimStore w) (<[a := mkData F ∅ 0 []]> (DataStore w))
                  (GroupStore w) (AllDims w) (<[F := Some a]> (AllFields w))
                  (AllGroups w) (ErrLog w))
    with (put_Data a (mkData F ∅ 0 [])
                   (set_AllFields (<[F := Some a]> (AllFields w)) w)).
  erewrite bind_Ret by apply update_put.
  erewrite bind_Ret by apply update_put.
  unfold MetaData.set_NDims, MetaData.set_DimNames.
  cbn [FieldName MetaMap NDims DimNames].
  do 6 add_fresh_entry.
  reflexivity.
Qed.

(** X14: the array form of [create], for a new name, logs nothing and
    registers a record with exactly the six entries Description, Units,
    StdName, ValidMin, ValidMax and FillValue.  The three texts are read
    back by the string overload of [getEntry], the three values by the
    overload of the kind they were given with, and [getNumDims] returns
    the number given. *)
Theorem create_array_populates_six_entries (w : World) (F : string)
        (Description Units StdName : string)
        (kmin kmax kfill : Kind) (ValidMin : ctype kmin)
        (ValidMax : ctype kmax) (FillValue : ctype kfill) (NumDims : Z)
        (Dimensions : list string) :
  fst (MetaData.has F w) = Ret false ->
  exists a w1,
    MetaData.create_array F Description Units StdName
      (make_any kmin ValidMin) (make_any kmax ValidMax)
      (make_any kfill FillValue) NumDims Dimensions w = (Ret (Some a), w1) /\
    ErrLog w1 = ErrLog w /\
    fst (MetaData.get F w1) = Ret (Some a) /\
    fst (MetaData.getNumDims (Some a) w1) = Ret NumDims /\
    (forall e, fst (MetaData.hasEntry (Some a) e w1) = Ret true <->
               e ∈ ["Description"; "Units"; "StdName";
                    "ValidMin"; "ValidMax"; "FillValue"]) /\
    (forall v0, fst (MetaData.getEntry KString (Some a) "Description" v0 w1)
                = Ret (0, Description)) /\
    (forall v0, fst (MetaData.getEntry KString (Some a) "Units" v0 w1)
                = Ret (0, Units)) /\
    (forall v0, fst (MetaData.getEntry KString (Some a) "StdName" v0 w1)
                = Ret (0, StdName)) /\
    (forall v0, fst (MetaData.getEntry kmin (Some a) "ValidMin" v0 w1)
                = Ret (0, ValidMin)) /\
    (forall v0, fst (MetaData.getEntry kmax (Some a) "ValidMax" v0 w1)
                = Ret (0, ValidMax)) /\
    (forall v0, fst (MetaData.getEntry kfill (Some a) "FillValue" v0 w1)
                = Ret (0, FillValue)).
Proof.
  intros H. apply has_false_inv in H.
  eexists _, _. split; [apply (MetaData_create_array_record w F); exact H|].
  split; [reflexivity|].
  match goal with |- context [put_Data ?a ?d ?w0] =>
    set (w0' := w0); set (d0 := d); set (a0 := a) in *;
    assert (Ha : DataStore (put_Data a0 d0 w0') !! a0 = Some d0)
      by apply put_Data_lookup
  end.
  split.
  { erewrite MetaData_get_found; [reflexivity|].
    unfold put_Data, w0'. wsimpl. apply lookup_insert_eq. }
  split.
  { unfold MetaData.getNumDims, bind, deref. cbn [store Managed_Data].
    rewrite Ha. reflexivity. }
  split.
  { intros e. rewrite (hasEntry_spec _ a0 d0 e Ha). cbn [fst].
    rewrite !elem_of_cons, elem_of_nil.
    split.
    - intros He. assert (Hc : map_contains e (MetaMap d0) = true) by congruence.
      apply map_contains_true in Hc. destruct Hc as [x Hx].
      unfold d0 in Hx. cbn [MetaMap] in Hx.
      repeat (rewrite lookup_insert in Hx;
              destruct (decide _) as [<-|_] in Hx; [tauto|]).
      rewrite lookup_empty in Hx. discriminate.
    - intros He. f_equal. apply map_contains_true.
      unfold d0. cbn [MetaMap].
      destruct He as [->|[->|[->|[->|[->|[->|[]]]]]]];
        repeat (rewrite lookup_insert_ne by discriminate);
        rewrite lookup_insert_eq; eauto. }
  repeat split; intros v0;
    (erewrite (getEntry_existing _ a0 d0 _ Ha);
     [ rewrite ?any_cast_make_any; try reflexivity
     | unfold d0; cbn [MetaMap];
       repeat (rewrite lookup_insert_ne by discriminate);
       apply lookup_insert_eq ]).
Qed.

Lemma union_insert_present {V} (m M' : gmap string V) (N : string)
      (old x : V) :
  m !! N = Some old -> m ∪ <[N := x]> M' = m ∪ M'.
Proof.
  intros H. apply map_eq. intros i. rewrite !lookup_union.
  destruct (decide (N = i)) as [<-|Hne].
  - rewrite H, lookup_insert_eq. destruct (M' !! N); reflexivity.
  - rewrite lookup_insert_ne by exact Hne. reflexivity.
Qed.

(** The loop of the list form of [create]: a pair whose name the record
    already has is skipped (and logged), every other pair is inserted. *)
Lemma addEntries_put (a : positive) (MetaPairs : list (string * Any)) :
  forall (d : DataObject) (w : World),
  exists w',
    MetaData.addEntries (Some a) MetaPairs (put_Data a d w) =
      (Ret tt,
       put_Data a (mkData (FieldName d) (MetaMap d ∪ list_to_map MetaPairs)
                          (NDims d) (DimNames d)) w') /\
    all_but_log w' = all_but_log w /\
    (NoDup (MetaPairs.*1) ->
     (forall k, k ∈ MetaPairs.*1 -> MetaMap d !! k = None) -> w' = w).
Proof.
  induction MetaPairs as [|[N V] rest IH]; intros d w;
    cbn [MetaData.addEntries fst snd].
  - exists w. cbn [list_to_map foldr]. rewrite (right_id_L ∅ (∪)).
    rewrite DataObject_eta. repeat split.
  - destruct (MetaMap d !! N) as [old|] eqn:HN.
    + erewrite bind_Ret
        by (apply (addEntry_existing _ a d N (put_Data_lookup a d w) V old HN)).
      change (add_log (EntryAlreadyExists N (FieldName d)) (put_Data a d w))
        with (put_Data a d (add_log (EntryAlreadyExists N (FieldName d)) w)).
      destruct (IH d (add_log (EntryAlreadyExists N (FieldName d)) w))
        as (w' & Hrun & Hsame & _).
      exists w'. rewrite Hrun. rewrite list_to_map_cons.
      rewrite (union_insert_present _ _ N old V HN).
      split; [reflexivity|]. split; [rewrite Hsame; reflexivity|].
      intros _ Hfresh. exfalso.
      rewrite (Hfresh N) in HN by (cbn; left).
      discriminate.
    + erewrite bind_Ret by (apply (addEntry_put a d w N V HN)).
      destruct (IH (mkData (FieldName d) (<[N := V]> (MetaMap d)) (NDims d)
                           (DimNames d)) w) as (w' & Hrun & Hsame & Hnodup).
      exists w'. rewrite Hrun. cbn [FieldName MetaMap NDims DimNames].
      rewrite list_to_map_cons.
      rewrite <- (insert_union_l _ _ N V), (insert_union_r _ _ N V HN).
      split; [reflexivity|]. split; [exact Hsame|].
      intros Hnd Hfresh. cbn [fmap list_fmap fst] in Hnd.
      apply NoDup_cons in Hnd. destruct Hnd as [HNnotin Hnd].
      apply Hnodup; [exact Hnd|].
      intros k Hk. cbn [MetaMap].
      rewrite lookup_insert_ne by (intros ->; contradiction).
      apply Hfresh. cbn. right; exact Hk.
Qed.

(** X15: the list form of [create], for a new name, registers a record
    without dimensions whose entries are those of the list, where of
    several pairs with one name the first one counts: its value is what
    [getEntry] returns.  When all names of the list differ, nothing is
    logged. *)
Theorem create_pairs_keeps_first_of_each_name (w : World) (F : string)
        (MetaPairs : list (string * Any)) :
  fst (MetaData.has F w) = Ret false ->
  exists a w1,
    MetaData.create_pairs F MetaPairs w = (Ret (Some a), w1) /\
    DataStore w1 !! a = Some (mkData F (list_to_map MetaPairs) 0 []) /\
    fst (MetaData.get F w1) = Ret (Some a) /\
    (NoDup (MetaPairs.*1) -> ErrLog w1 = ErrLog w) /\
    (forall (before after : list (string * Any)) (N : string) (k : Kind)
            (v v0 : ctype k),
        MetaPairs = (before ++ (N, make_any k v) :: after)%list ->
        N ∉ before.*1 ->
        fst (MetaData.getEntry k (Some a) N v0 w1) = Ret (0, v)) /\
    (forall N, fst (MetaData.hasEntry (Some a) N w1) = Ret true <->
               N ∈ MetaPairs.*1).
Proof.
  intros H. apply has_false_inv in H. unfold MetaData.create_pairs.
  erewrite bind_Ret by (apply (MetaData_create_new w F H)).
  rewrite bool_decide_eq_true_2 by discriminate.
  set (a := new_addr (DataStore w)).
  change (mkWorld (DimStore w) (<[a := mkData F ∅ 0 []]> (DataStore w))
                  (GroupStore w) (AllDims w) (<[F := Some a]> (AllFields w))
                  (AllGroups w) (ErrLog w))
    with (put_Data a (mkData F ∅ 0 [])
                   (set_AllFields (<[F := Some a]> (AllFields w)) w)).
  erewrite bind_Ret by apply update_put.
  unfold MetaData.set_NDims. cbn [FieldName MetaMap NDims DimNames].
  destruct (addEntries_put a MetaPairs (mkData F ∅ 0 [])
              (set_AllFields (<[F := Some a]> (AllFields w)) w))
    as (w' & Hrun & Hsame & Hnodup).
  erewrite bind_Ret by exact Hrun.
  cbn [FieldName MetaMap NDims DimNames]. rewrite (left_id_L ∅ (∪)).
  set (d := mkData F (list_to_map MetaPairs) 0 []).
  assert (Ha : DataStore (put_Data a d w') !! a = Some d)
    by apply put_Data_lookup.
  exists a, (put_Data a d w'). split; [reflexivity|].
  split; [exact Ha|].
  split.
  { erewrite MetaData_get_found; [reflexivity|].
    unfold put_Data. wsimpl.
    assert (E : AllFields w' = <[F := Some a]> (AllFields w)).
    { unfold all_but_log, fields_part in Hsame. revert Hsame. wsimpl.
      congruence. }
    rewrite E. apply lookup_insert_eq. }
  split.
  { intros Hnd. rewrite Hnodup; [reflexivity | exact Hnd |].
    intros k _. apply lookup_empty. }
  split.
  - intros before after N k v v0 -> Hnotin.
    erewrite (getEntry_existing _ a d N Ha k v0 (make_any k v)).
    + rewrite any_cast_make_any. reflexivity.
    + unfold d. cbn [MetaMap]. rewrite list_to_map_app.
      rewrite lookup_union_r by (apply not_elem_of_list_to_map_1, Hnotin).
      rewrite list_to_map_cons. apply lookup_insert_eq.
  - intros N. rewrite (hasEntry_spec _ a d N Ha). cbn [fst]. unfold d.
    cbn [MetaMap]. split.
    + intros Ht. assert (Hc : map_contains N (list_to_map MetaPairs
                                   : gmap string Any) = true) by congruence.
      apply map_contains_true in Hc.
      destruct (decide (N ∈ MetaPairs.*1)) as [Hin|Hnotin]; [exact Hin|].
      apply (not_elem_of_list_to_map_1 (M := gmap string)) in Hnotin.
      rewrite Hnotin in Hc. destruct Hc as [? Hc]. discriminate.
    + intros Hin. f_equal. apply map_contains_true.
      destruct (list_to_map MetaPairs !! N) as [x|] eqn:E; [eauto|].
      apply not_elem_of_list_to_map_2 in E. contradiction.
Qed.

Lemma removeEntry_missing (w : World) (a : positive) (d : DataObject)
      (N : string) :
  DataStore w !! a = Some d -> MetaMap d !! N = None ->
  MetaData.removeEntry (Some a) N w =
    (Ret (-1), add_log (EntryRemoveMissing N (FieldName d)) w).
Proof.
  intros Ha HN. unfold MetaData.removeEntry.
  erewrite bind_Ret by (apply (hasEntry_spec w a d N Ha)).
  rewrite (proj2 (map_contains_false _ _) HN).
  cpp_simpl. rewrite Ha. reflexivity.
Qed.

Lemma hasEntry_false_inv (w : World) (a : positive) (N : string) :
  fst (MetaData.hasEntry (Some a) N w) = Ret false ->
  exists d, DataStore w !! a = Some d /\ MetaMap d !! N = None.
Proof.
  unfold MetaData.hasEntry. cpp_simpl.
  destruct (DataStore w !! a) as [d|]; [|discriminate].
  cbn [fst]. intros H. exists d. split; [reflexivity|].
  apply map_contains_false. congruence.
Qed.

Lemma hasEntry_true_inv (w : World) (a : positive) (N : string) :
  fst (MetaData.hasEntry (Some a) N w) = Ret true ->
  exists d x, DataStore w !! a = Some d /\ MetaMap d !! N = Some x.
Proof.
  unfold MetaData.hasEntry. cpp_simpl.
  destruct (DataStore w !! a) as [d|]; [|discriminate].
  cbn [fst]. intros H.
  assert (Hc : map_contains N (MetaMap d) = true) by congruence.
  apply map_contains_true in Hc. destruct Hc as [x Hx]. eauto.
Qed.

(** X16: for a name that a record has no entry for, [removeEntry]
    returns -1 and every overload of [getEntry] returns -1 and leaves the
    caller's variable as it was; both log, and the record is not
    changed. *)
Theorem missing_entry_is_reported (w : World) (a : positive) (N : string) :
  fst (MetaData.hasEntry (Some a) N w) = Ret false ->
  exists d,
    DataStore w !! a = Some d /\
    MetaData.removeEntry (Some a) N w =
      (Ret (-1), add_log (EntryRemoveMissing N (FieldName d)) w) /\
    (forall (k : Kind) (Value : ctype k),
        MetaData.getEntry k (Some a) N Value w =
          (Ret (-1, Value), add_log (EntryGetMissing N (FieldName d)) w)).
Proof.
  intros H. destruct (hasEntry_false_inv w a N H) as (d & Ha & HN).
  exists d. split; [exact Ha|].
  split; [apply (removeEntry_missing w a d N Ha HN)|].
  intros k Value. apply (getEntry_missing w a d N Ha k Value HN).
Qed.

(** X17: [removeEntry] of an entry that exists returns 0 without logging
    and removes that entry only: every other name of the record reads as
    before, with every overload of [getEntry]. *)
Theorem removeEntry_removes_one_entry (w : World) (a : positive)
        (N : string) :
  fst (MetaData.hasEntry (Some a) N w) = Ret true ->
  exists w',
    MetaData.removeEntry (Some a) N w = (Ret 0, w') /\
    ErrLog w' = ErrLog w /\
    fst (MetaData.hasEntry (Some a) N w') = Ret false /\
    (forall (N' : string) (k : Kind) (Value : ctype k),
        N' <> N ->
        fst (MetaData.hasEntry (Some a) N' w')
          = fst (MetaData.hasEntry (Some a) N' w) /\
        fst (MetaData.getEntry k (Some a) N' Value w')
          = fst (MetaData.getEntry k (Some a) N' Value w)).
Proof.
  intros H. destruct (hasEntry_true_inv w a N H) as (d & x & Ha & HN).
  eexists. split; [apply (removeEntry_existing w a d N Ha x HN)|].
  set (d' := MetaData.set_MetaMap (delete N (MetaMap d)) d).
  set (w' := set_DataStore (<[a := d']> (DataStore w)) w).
  assert (Ha' : DataStore w' !! a = Some d') by apply lookup_insert_eq.
  split; [reflexivity|]. split.
  { rewrite (hasEntry_spec w' a d' N Ha'). cbn [fst]. f_equal.
    apply map_contains_false. apply lookup_delete_eq. }
  intros N' k Value Hne.
  assert (E : MetaMap d' !! N' = MetaMap d !! N')
    by (apply lookup_delete_ne; congruence).
  split.
  - rewrite (hasEntry_spec w' a d' N' Ha'), (hasEntry_spec w a d N' Ha).
    unfold map_contains. rewrite E. reflexivity.
  - destruct (MetaMap d !! N') as [y|] eqn:HN'.
    + rewrite (getEntry_existing w' a d' N' Ha' k Value y E).
      rewrite (getEntry_existing w a d N' Ha k Value y HN'). reflexivity.
    + rewrite (getEntry_missing w' a d' N' Ha' k Value E).
      rewrite (getEntry_missing w a d N' Ha k Value HN'). reflexivity.
Qed.

(** X18: adding an entry under a new name and removing it again gives
    back the state from before, log included. *)
Theorem addEntry_then_removeEntry_restores (w : World) (a : positive)
        (N : string) (Value : Any) :
  fst (MetaData.hasEntry (Some a) N w) = Ret false ->
  (let* r1 := MetaData.addEntry (Some a) N Value in
   let* r2 := MetaData.removeEntry (Some a) N in
   ret (r1, r2)) w = (Ret (0, 0), w).
Proof.
  intros H. destruct (hasEntry_false_inv w a N H) as (d & Ha & HN).
  erewrite bind_Ret by (apply (addEntry_new w a d N Ha Value HN)).
  set (d1 := MetaData.set_MetaMap (<[N := Value]> (MetaMap d)) d).
  set (w1 := set_DataStore (<[a := d1]> (DataStore w)) w).
  assert (Ha1 : DataStore w1 !! a = Some d1) by apply lookup_insert_eq.
  assert (HN1 : MetaMap d1 !! N = Some Value) by apply lookup_insert_eq.
  erewrite bind_Ret by (apply (removeEntry_existing w1 a d1 N Ha1 Value HN1)).
  unfold ret. f_equal. unfold w1, d1. wsimpl.
  rewrite insert_insert_eq, (delete_insert_id _ _ _ HN).
  rewrite DataObject_eta, (insert_id _ _ _ Ha). apply World_eta.
Qed.

(** X19: [addEntry] and [removeEntry] on one record change no other
    record and no static map. *)
Theorem entries_of_other_records_untouched (w : World) (this : shared_ptr)
        (N : string) (Value : Any) (b : positive) :
  this <> Some b ->
  DataStore (snd (MetaData.addEntry this N Value w)) !! b
    = DataStore w !! b /\
  DataStore (snd (MetaData.removeEntry this N w)) !! b = DataStore w !! b /\
  AllFields (snd (MetaData.addEntry this N Value w)) = AllFields w /\
  AllFields (snd (MetaData.removeEntry this N w)) = AllFields w.
Proof.
  intros Hne. unfold MetaData.addEntry, MetaData.removeEntry,
    MetaData.hasEntry, map_erase.
  cpp_simpl. destruct this as [a|]; [|repeat split].
  assert (a <> b) by congruence.
  destruct (DataStore w !! a) as [d|] eqn:Ha; wsimpl; [|repeat split].
  destruct (map_contains N (MetaMap d)) eqn:E; wsimpl; rewrite ?Ha; wsimpl;
    rewrite ?Ha, ?E; wsimpl;
    repeat split; try reflexivity; apply lookup_insert_ne; assumption.
Qed.

(** * More about groups *)

Lemma GroupObject_eta (g : GroupObject) : mkGroup (GrpName g) (Fields g) = g.
Proof. destruct g; reflexivity. Qed.

Lemma MetaGroup_create_new (w : World) (N : string) :
  AllGroups w !! N = None ->
  MetaGroup.create N w =
    (Ret (Some (new_addr (GroupStore w))),
     mkWorld (DimStore w) (DataStore w)
             (<[new_addr (GroupStore w) := mkGroup N ∅]> (GroupStore w))
             (AllDims w) (AllFields w)
             (<[N := Some (new_addr (GroupStore w))]> (AllGroups w))
             (ErrLog w)).
Proof.
  intros HN. unfold MetaGroup.create, MetaGroup.has,
    MetaGroup.AllGroups_assign.
  cpp_simpl. rewrite (proj2 (map_contains_false N (AllGroups w)) HN). wsimpl.
  rewrite !lookup_insert_eq. wsimpl. rewrite !insert_insert_eq. reflexivity.
Qed.

Lemma MetaGroup_create_existing (w : World) (N : string)
      (p : option positive) :
  AllGroups w !! N = Some p ->
  MetaGroup.create N w = (Ret None, add_log (GroupAlreadyExists N) w).
Proof.
  intros HN. unfold MetaGroup.create, MetaGroup.has. cpp_simpl.
  rewrite (map_contains_Some N (AllGroups w) p HN). reflexivity.
Qed.

Lemma MetaGroup_has_inv (w : World) (N : string) (b : bool) :
  fst (MetaGroup.has N w) = Ret b -> map_contains N (AllGroups w) = b.
Proof. unfold MetaGroup.has, gets. cbn [fst]. congruence. Qed.

(** X20: [MetaGroup::create] of a new name returns a non-null pointer to
    a group without members, which [has] and [get] then find; for a name
    that is taken it returns [nullptr], logs, and changes nothing else,
    so the members of the existing group are kept. *)
Theorem group_create_then_get (w : World) (N : string) :
  (fst (MetaGroup.has N w) = Ret false ->
   exists a w1,
     MetaGroup.create N w = (Ret (Some a), w1) /\
     fst (MetaGroup.has N w1) = Ret true /\
     fst (MetaGroup.get N w1) = Ret (Some a) /\
     (forall F, fst (MetaGroup.hasField (Some a) F w1) = Ret false) /\
     fst (MetaGroup.getFieldList (Some a) w1) = Ret ∅ /\
     ErrLog w1 = ErrLog w) /\
  (fst (MetaGroup.has N w) = Ret true ->
   MetaGroup.create N w = (Ret None, add_log (GroupAlreadyExists N) w)).
Proof.
  split; intros H; apply MetaGroup_has_inv in H.
  - apply map_contains_false in H.
    eexists _, _. split; [apply (MetaGroup_create_new w N H)|].
    split.
    { unfold MetaGroup.has, gets. wsimpl.
      erewrite map_contains_Some by apply lookup_insert_eq. reflexivity. }
    split.
    { erewrite MetaGroup_get_found by (wsimpl; apply lookup_insert_eq).
      reflexivity. }
    split.
    { intros F. unfold MetaGroup.hasField. cpp_simpl.
      rewrite lookup_insert_eq. wsimpl.
      f_equal; apply bool_decide_eq_false_2; set_solver. }
    split; [|reflexivity].
    unfold MetaGroup.getFieldList. cpp_simpl. rewrite lookup_insert_eq.
    wsimpl. rewrite elements_empty. reflexivity.
  - apply map_contains_true in H. destruct H as [p Hp].
    apply (MetaGroup_create_existing w N p Hp).
Qed.

Section GroupMembers.

Variables (w : World) (G : positive) (g : GroupObject) (F : string).
Hypothesis HG : GroupStore w !! G = Some g.

Lemma addField_registered (p : option positive) :
  AllFields w !! F = Some p ->
  MetaGroup.addField (Some G) F w =
    (Ret 0,
     set_GroupStore (<[G := mkGroup (GrpName g) ({[F]} ∪ Fields g)]>
                       (GroupStore w)) w).
Proof.
  intros HF. unfold MetaGroup.addField, MetaData.has. cpp_simpl.
  rewrite (map_contains_Some F (AllFields w) p HF). wsimpl.
  rewrite HG. reflexivity.
Qed.

Lemma removeField_member :
  F ∈ Fields g ->
  MetaGroup.removeField (Some G) F w =
    (Ret 0,
     set_GroupStore (<[G := mkGroup (GrpName g) (Fields g ∖ {[F]})]>
                       (GroupStore w)) w).
Proof.
  intros HF. unfold MetaGroup.removeField, set_erase.
  erewrite bind_Ret by (apply (hasField_spec w G g F HG)).
  rewrite bool_decide_eq_true_2 by exact HF. cbn [negb].
  cpp_simpl. rewrite HG. rewrite bool_decide_eq_true_2 by exact HF.
  wsimpl. rewrite HG. reflexivity.
Qed.

Lemma removeField_not_member :
  F ∉ Fields g ->
  MetaGroup.removeField (Some G) F w =
    (Ret (-1), add_log (GroupRemoveNotMember F (GrpName g)) w).
Proof.
  intros HF. unfold MetaGroup.removeField.
  erewrite bind_Ret by (apply (hasField_spec w G g F HG)).
  rewrite bool_decide_eq_false_2 by exact HF. cbn [negb].
  cpp_simpl. rewrite HG. reflexivity.
Qed.

End GroupMembers.

(** X21: adding a registered field to a group returns 0 and logs
    nothing; the field is then a member, and [getField] returns the
    pointer that [MetaData::get] returns for it. *)
Theorem addField_registered_then_getField (w : World) (G : positive)
        (F : string) :
  fst (MetaData.has F w) = Ret true ->
  is_Some (GroupStore w !! G) ->
  exists w1,
    MetaGroup.addField (Some G) F w = (Ret 0, w1) /\
    ErrLog w1 = ErrLog w /\
    fst (MetaGroup.hasField (Some G) F w1) = Ret true /\
    MetaGroup.getField (Some G) F w1 = MetaData.get F w1 /\
    fst (MetaData.get F w1) = fst (MetaData.get F w).
Proof.
  unfold MetaData.has at 1. unfold gets. cbn [fst]. intros H [g HG].
  apply has_true_inv in H. destruct H as [p Hp].
  eexists. split; [apply (addField_registered w G g F HG p Hp)|].
  set (g1 := mkGroup (GrpName g) ({[F]} ∪ Fields g)).
  set (w1 := set_GroupStore (<[G := g1]> (GroupStore w)) w).
  assert (HG1 : GroupStore w1 !! G = Some g1) by apply lookup_insert_eq.
  assert (Hin : F ∈ Fields g1) by (unfold g1; cbn [Fields]; set_solver).
  split; [reflexivity|]. split.
  { rewrite (hasField_spec w1 G g1 F HG1).
    rewrite bool_decide_eq_true_2 by exact Hin. reflexivity. }
  split; [apply (getField_member w1 G g1 F HG1 Hin)|].
  rewrite (MetaData_get_found w1 F p) by exact Hp.
  rewrite (MetaData_get_found w F p Hp). reflexivity.
Qed.

(** X22: the members of a group are a set: [addField] of a name that is
    a member already leaves the group as it is, whether the field is
    registered (status 0) or not (status -2). *)
Theorem addField_of_member_changes_nothing (w : World) (G : positive)
        (F : string) :
  fst (MetaGroup.hasField (Some G) F w) = Ret true ->
  exists r w1,
    MetaGroup.addField (Some G) F w = (Ret r, w1) /\
    all_but_log w1 = all_but_log w /\
    (r = 0 /\ fst (MetaData.has F w) = Ret true /\ w1 = w
     \/ r = -2 /\ fst (MetaData.has F w) = Ret false).
Proof.
  unfold MetaGroup.hasField. cpp_simpl.
  destruct (GroupStore w !! G) as [g|] eqn:HG; [|discriminate].
  cbn [fst]. intros H.
  assert (Hin : F ∈ Fields g).
  { eapply bool_decide_eq_true_1. congruence. }
  assert (Hsame : {[F]} ∪ Fields g = Fields g).
  { apply set_eq. intros x. rewrite elem_of_union, elem_of_singleton.
    split; [intros [->|Hx]; assumption | tauto]. }
  unfold MetaGroup.addField, MetaData.has. cpp_simpl.
  destruct (map_contains F (AllFields w)); wsimpl; rewrite HG; wsimpl;
    rewrite ?HG, Hsame, GroupObject_eta, (insert_id _ _ _ HG).
  - exists 0, w. rewrite World_eta. split; [reflexivity|].
    split; [reflexivity|]. left. repeat split.
  - eexists (-2), _. split; [reflexivity|]. split; [reflexivity|].
    right. split; reflexivity.
Qed.

(** X23: [removeField] returns 0 exactly for a member, and then removes
    that name and no other from the group without logging; for a name
    that is not a member it returns -1 and only logs.  The status -2 is
    never returned. *)
Theorem removeField_result (w : World) (G : positive) (g : GroupObject)
        (F : string) :
  GroupStore w !! G = Some g ->
  exists r w1,
    MetaGroup.removeField (Some G) F w = (Ret r, w1) /\
    (r = 0 /\ (F ∈ Fields g) /\ ErrLog w1 = ErrLog w /\
     (forall F', fst (MetaGroup.hasField (Some G) F' w1)
                 = Ret (bool_decide ((F' ∈ Fields g) /\ F' <> F)))
     \/
     r = -1 /\ (F ∉ Fields g) /\
     w1 = add_log (GroupRemoveNotMember F (GrpName g)) w).
Proof.
  intros HG. destruct (decide (F ∈ Fields g)) as [Hin|Hnotin].
  - eexists 0, _. split; [apply (removeField_member w G g F HG Hin)|].
    left. split; [reflexivity|]. split; [exact Hin|].
    split; [reflexivity|]. intros F'.
    unfold MetaGroup.hasField. cpp_simpl. rewrite lookup_insert_eq. wsimpl.
    f_equal. apply bool_decide_ext. set_solver.
  - eexists (-1), _. split; [apply (removeField_not_member w G g F HG Hnotin)|].
    right. repeat split. exact Hnotin.
Qed.

(** X24: [getFieldList] returns exactly the members of the group: a name
    is in the returned set if and only if [hasField] holds for it; the
    call changes nothing. *)
Theorem getFieldList_is_the_member_set (w : World) (G : positive)
        (g : GroupObject) :
  GroupStore w !! G = Some g ->
  exists List_,
    MetaGroup.getFieldList (Some G) w = (Ret List_, w) /\
    List_ = Fields g /\
    (forall F, F ∈ List_ <->
               fst (MetaGroup.hasField (Some G) F w) = Ret true).
Proof.
  intros HG. unfold MetaGroup.getFieldList. cpp_simpl. rewrite HG.
  assert (E : foldr (fun x L => {[x]} ∪ L) (∅ : gset string)
                    (elements (Fields g)) = Fields g).
  { apply set_eq. intros x. rewrite <- (elem_of_elements (Fields g) x).
    induction (elements (Fields g)) as [|y l IH]; cbn [foldr].
    - set_solver.
    - rewrite elem_of_union, elem_of_singleton, elem_of_cons, IH.
      reflexivity. }
  eexists. split; [reflexivity|]. split; [exact E|].
  intros F. rewrite E, (hasField_spec w G g F HG). cbn [fst].
  split.
  - intros Hin. rewrite bool_decide_eq_true_2 by exact Hin. reflexivity.
  - intros H. eapply bool_decide_eq_true_1. congruence.
Qed.

(** X25: [addField] and [removeField] on one group change no other
    group and no static map: membership in one group says nothing about
    another. *)
Theorem members_of_other_groups_untouched (w : World) (this : shared_ptr)
        (F : string) (b : positive) :
  this <> Some b ->
  GroupStore (snd (MetaGroup.addField this F w)) !! b = GroupStore w !! b /\
  GroupStore (snd (MetaGroup.removeField this F w)) !! b
    = GroupStore w !! b /\
  AllGroups (snd (MetaGroup.addField this F w)) = AllGroups w /\
  AllGroups (snd (MetaGroup.removeField this F w)) = AllGroups w.
Proof.
  intros Hne. unfold MetaGroup.addField, MetaGroup.removeField,
    MetaGroup.hasField, MetaData.has, set_erase.
  cpp_simpl. destruct this as [a|].
  - assert (a <> b) by congruence.
    destruct (GroupStore w !! a) as [g|] eqn:Ha; wsimpl.
    + destruct (map_contains F (AllFields w)) eqn:E1;
        destruct (bool_decide (F ∈ Fields g)) eqn:E2; wsimpl;
        rewrite ?Ha; wsimpl; rewrite ?Ha, ?E2; wsimpl;
        repeat split; try reflexivity; apply lookup_insert_ne; assumption.
    + destruct (map_contains F (AllFields w)); wsimpl; rewrite ?Ha;
        repeat split.
  - destruct (map_contains F (AllFields w)); repeat split.
Qed.

(** * Registration of the layer thickness fields *)

(** X26: the dimension names that [registerFields] computes are, for
    every mesh name, exactly [NDims] = 2 names: the edge dimension, with
    the mesh name as suffix unless the mesh is "Default", and
    "NVertLevels".  A record created from them with the array form of
    [MetaData::create] gives them back through [getDimNames], within
    bounds. *)
Theorem registerFields_dimension_names (w : World) (MeshName F : string)
        (Description Units StdName : string)
        (ValidMin ValidMax FillValue : Any) (Out : list string) :
  fst (MetaData.has F w) = Ret false ->
  registerFields_DimNames MeshName =
    [ "NEdges" ++ (if String.eqb MeshName "Default" then "" else MeshName);
      "NVertLevels" ] /\
  exists a w1,
    MetaData.create_array F Description Units StdName ValidMin ValidMax
      FillValue registerFields_NDims (registerFields_DimNames MeshName) w
      = (Ret (Some a), w1) /\
    MetaData.getDimNames (Some a) Out w1 =
      (Ret (0, registerFields_DimNames MeshName), w1).
Proof.
  intros H. apply has_false_inv in H. split; [reflexivity|].
  eexists _, _.
  split; [apply (MetaData_create_array_record w F); exact H|].
  erewrite getDimNames_spec by apply put_Data_lookup.
  reflexivity.
Qed.

(** * Concrete runs of the further properties *)

Ltac by_decide := apply (bool_decide_unpack _); vm_compute; exact I.

Lemma registered_names_resolve_witness :
  consistent w_populated /\
  (fst (MetaDim.has "NCells" w_populated) = Ret true ->
   exists a d, MetaDim.get "NCells" w_populated = (Ret (Some a), w_populated) /\
               DimStore w_populated !! a = Some d /\ DimName d = "NCells") /\
  (fst (MetaData.has "NCells" w_populated) = Ret true ->
   exists a d, MetaData.get "NCells" w_populated = (Ret (Some a), w_populated) /\
               DataStore w_populated !! a = Some d /\
               FieldName d = "NCells") /\
  (fst (MetaGroup.has "NCells" w_populated) = Ret true ->
   exists a g, MetaGroup.get "NCells" w_populated
               = (Ret (Some a), w_populated) /\
               GroupStore w_populated !! a = Some g /\ GrpName g = "NCells").
Proof.
  assert (H : consistent w_populated) by by_decide.
  split; [exact H|].
  exact (registered_names_resolve w_populated "NCells" H).
Defined.

Lemma registered_names_do_not_alias_witness :
  consistent w_populated /\ "NCells" <> "NEdges" /\
  (fst (MetaDim.get "NCells" w_populated) = Ret (Some 1%positive) ->
   fst (MetaDim.get "NEdges" w_populated) = Ret (Some 1%positive) ->
   Some 1%positive = None) /\
  (fst (MetaData.get "NCells" w_populated) = Ret (Some 1%positive) ->
   fst (MetaData.get "NEdges" w_populated) = Ret (Some 1%positive) ->
   Some 1%positive = None) /\
  (fst (MetaGroup.get "NCells" w_populated) = Ret (Some 1%positive) ->
   fst (MetaGroup.get "NEdges" w_populated) = Ret (Some 1%positive) ->
   Some 1%positive = None).
Proof.
  assert (H : consistent w_populated) by by_decide.
  assert (Hne : "NCells" <> "NEdges") by discriminate.
  split; [exact H|]. split; [exact Hne|].
  exact (registered_names_do_not_alias w_populated "NCells" "NEdges"
           (Some 1%positive) H Hne).
Defined.


Lemma getDimLength_agrees_with_get_witness :
  consistent w_populated /\
  (fst (MetaDim.has "NEdges" w_populated) = Ret false ->
   MetaDim.getDimLength "NEdges" w_populated
   = (Ret (-1), add_log (DimLengthMissing "NEdges") w_populated)) /\
  (fst (MetaDim.has "NEdges" w_populated) = Ret true ->
   exists a, MetaDim.get "NEdges" w_populated = (Ret (Some a), w_populated) /\
             MetaDim.getDimLength "NEdges" w_populated
             = MetaDim.getLength (Some a) w_populated).
Proof.
  assert (H : consistent w_populated) by by_decide.
  split; [exact H|].
  exact (getDimLength_agrees_with_get w_populated "NEdges" H).
Defined.

Lemma getDimLength_minus_one_is_ambiguous_witness :
  fst (MetaDim.has "Time" w_populated) = Ret false /\
  exists a w',
    MetaDim.create "Time" (-1) w_populated = (Ret (Some a), w') /\
    fst (MetaDim.has "Time" w') = Ret true /\
    fst (MetaDim.getDimLength "Time" w') = Ret (-1) /\
    fst (MetaDim.getDimLength "Time" w_populated) = Ret (-1).
Proof.
  assert (H : fst (MetaDim.has "Time" w_populated) = Ret false) by by_compute.
  split; [exact H|].
  exact (getDimLength_minus_one_is_ambiguous w_populated "Time" H).
Defined.

Lemma queries_change_only_the_log_witness :
  is_query (OnFields (DataGetEntry KI4 (Some 1%positive) "E" 0)) = true /\
  all_but_log (step (OnFields (DataGetEntry KI4 (Some 1%positive) "E" 0))
                    w_entry)
  = all_but_log w_entry.
Proof.
  split; [reflexivity|].
  exact (queries_change_only_the_log
           (OnFields (DataGetEntry KI4 (Some 1%positive) "E" 0)) w_entry
           eq_refl).
Defined.

Lemma recreated_record_starts_empty_witness :
  fst (MetaData.has "Temperature" w_populated) = Ret true /\
  exists w1 a w2,
    MetaData.destroy "Temperature" w_populated = (Ret 0, w1) /\
    MetaData.create "Temperature" w1 = (Ret (Some a), w2) /\
    DataStore w2 !! a = Some (mkData "Temperature" ∅ 0 []) /\
    fst (MetaData.get "Temperature" w2) = Ret (Some a) /\
    (forall e, fst (MetaData.hasEntry (Some a) e w2) = Ret false) /\
    ErrLog w2 = ErrLog w_populated.
Proof.
  assert (H : fst (MetaData.has "Temperature" w_populated) = Ret true)
    by by_compute.
  split; [exact H|].
  exact (recreated_record_starts_empty w_populated "Temperature" H).
Defined.

Lemma create_array_populates_six_entries_witness :
  fst (MetaData.has "Salinity" w_populated) = Ret false /\
  exists a w1,
    MetaData.create_array "Salinity" "sea water salinity" "PSU" ""
      (make_any KR8 (S754_zero false)) (make_any KI4 50)
      (make_any KR4 (S754_zero true)) 1 ["NCells"] w_populated
    = (Ret (Some a), w1) /\
    ErrLog w1 = ErrLog w_populated /\
    fst (MetaData.get "Salinity" w1) = Ret (Some a) /\
    fst (MetaData.getNumDims (Some a) w1) = Ret 1 /\
    (forall e, fst (MetaData.hasEntry (Some a) e w1) = Ret true <->
               e ∈ ["Description"; "Units"; "StdName";
                    "ValidMin"; "ValidMax"; "FillValue"]) /\
    (forall v0, fst (MetaData.getEntry KString (Some a) "Description" v0 w1)
                = Ret (0, "sea water salinity")) /\
    (forall v0, fst (MetaData.getEntry KString (Some a) "Units" v0 w1)
                = Ret (0, "PSU")) /\
    (forall v0, fst (MetaData.getEntry KString (Some a) "StdName" v0 w1)
                = Ret (0, "")) /\
    (forall v0, fst (MetaData.getEntry KR8 (Some a) "ValidMin" v0 w1)
                = Ret (0, S754_zero false)) /\
    (forall v0, fst (MetaData.getEntry KI4 (Some a) "ValidMax" v0 w1)
                = Ret (0, 50)) /\
    (forall v0, fst (MetaData.getEntry KR4 (Some a) "FillValue" v0 w1)
                = Ret (0, S754_zero true)).
Proof.
  assert (H : fst (MetaData.has "Salinity" w_populated) = Ret false)
    by by_compute.
  split; [exact H|].
  exact (create_array_populates_six_entries w_populated "Salinity"
           "sea water salinity" "PSU" "" KR8 KI4 KR4 (S754_zero false) 50
           (S754_zero true) 1 ["NCells"] H).
Defined.

Lemma create_pairs_keeps_first_of_each_name_witness :
  fst (MetaData.has "simulation" w_populated) = Ret false /\
  exists a w1,
    MetaData.create_pairs "simulation"
      [("Meta1", AnyI4 1); ("Meta1", AnyI4 2)] w_populated
    = (Ret (Some a), w1) /\
    DataStore w1 !! a
    = Some (mkData "simulation"
              (list_to_map [("Meta1", AnyI4 1); ("Meta1", AnyI4 2)]) 0 []) /\
    fst (MetaData.get "simulation" w1) = Ret (Some a) /\
    (NoDup ([("Meta1", AnyI4 1); ("Meta1", AnyI4 2)].*1) ->
     ErrLog w1 = ErrLog w_populated) /\
    (forall (before after : list (string * Any)) (N : string) (k : Kind)
            (v v0 : ctype k),
        [("Meta1", AnyI4 1); ("Meta1", AnyI4 2)]
        = (before ++ (N, make_any k v) :: after)%list ->
        N ∉ before.*1 ->
        fst (MetaData.getEntry k (Some a) N v0 w1) = Ret (0, v)) /\
    (forall N, fst (MetaData.hasEntry (Some a) N w1) = Ret true <->
               N ∈ [("Meta1", AnyI4 1); ("Meta1", AnyI4 2)].*1).
Proof.
  assert (H : fst (MetaData.has "simulation" w_populated) = Ret false)
    by by_compute.
  split; [exact H|].
  exact (create_pairs_keeps_first_of_each_name w_populated "simulation"
           [("Meta1", AnyI4 1); ("Meta1", AnyI4 2)] H).
Defined.

Lemma missing_entry_is_reported_witness :
  fst (MetaData.hasEntry (Some 1%positive) "E" w_record) = Ret false /\
  exists d,
    DataStore w_record !! 1%positive = Some d /\
    MetaData.removeEntry (Some 1%positive) "E" w_record =
      (Ret (-1), add_log (EntryRemoveMissing "E" (FieldName d)) w_record) /\
    (forall (k : Kind) (Value : ctype k),
        MetaData.getEntry k (Some 1%positive) "E" Value w_record =
          (Ret (-1, Value),
           add_log (EntryGetMissing "E" (FieldName d)) w_record)).
Proof.
  assert (H : fst (MetaData.hasEntry (Some 1%positive) "E" w_record)
              = Ret false) by by_compute.
  split; [exact H|].
  exact (missing_entry_is_reported w_record 1 "E" H).
Defined.

Lemma removeEntry_removes_one_entry_witness :
  fst (MetaData.hasEntry (Some 1%positive) "E" w_entry) = Ret true /\
  exists w',
    MetaData.removeEntry (Some 1%positive) "E" w_entry = (Ret 0, w') /\
    ErrLog w' = ErrLog w_entry /\
    fst (MetaData.hasEntry (Some 1%positive) "E" w') = Ret false /\
    (forall (N' : string) (k : Kind) (Value : ctype k),
        N' <> "E" ->
        fst (MetaData.hasEntry (Some 1%positive) N' w')
          = fst (MetaData.hasEntry (Some 1%positive) N' w_entry) /\
        fst (MetaData.getEntry k (Some 1%positive) N' Value w')
          = fst (MetaData.getEntry k (Some 1%positive) N' Value w_entry)).
Proof.
  assert (H : fst (MetaData.hasEntry (Some 1%positive) "E" w_entry)
              = Ret true) by by_compute.
  split; [exact H|].
  exact (removeEntry_removes_one_entry w_entry 1 "E" H).
Defined.

Lemma addEntry_then_removeEntry_restores_witness :
  fst (MetaData.hasEntry (Some 1%positive) "E" w_record) = Ret false /\
  (let* r1 := MetaData.addEntry (Some 1%positive) "E" (AnyBool true) in
   let* r2 := MetaData.removeEntry (Some 1%positive) "E" in
   ret (r1, r2)) w_record = (Ret (0, 0), w_record).
Proof.
  assert (H : fst (MetaData.hasEntry (Some 1%positive) "E" w_record)
              = Ret false) by by_compute.
  split; [exact H|].
  exact (addEntry_then_removeEntry_restores w_record 1 "E" (AnyBool true) H).
Defined.

Lemma entries_of_other_records_untouched_witness :
  Some 2%positive <> Some 1%positive /\
  DataStore (snd (MetaData.addEntry (Some 2%positive) "Version" (AnyI4 3)
                    w_populated)) !! 1%positive
    = DataStore w_populated !! 1%positive /\
  DataStore (snd (MetaData.removeEntry (Some 2%positive) "Version"
                    w_populated)) !! 1%positive
    = DataStore w_populated !! 1%positive /\
  AllFields (snd (MetaData.addEntry (Some 2%positive) "Version" (AnyI4 3)
                    w_populated)) = AllFields w_populated /\
  AllFields (snd (MetaData.removeEntry (Some 2%positive) "Version"
                    w_populated)) = AllFields w_populated.
Proof.
  assert (H : Some 2%positive <> Some 1%positive) by discriminate.
  split; [exact H|].
  exact (entries_of_other_records_untouched w_populated (Some 2%positive)
           "Version" (AnyI4 3) 1 H).
Defined.

Lemma group_create_then_get_witness :
  (fst (MetaGroup.has "Diagnostics" w_populated) = Ret false ->
   exists a w1,
     MetaGroup.create "Diagnostics" w_populated = (Ret (Some a), w1) /\
     fst (MetaGroup.has "Diagnostics" w1) = Ret true /\
     fst (MetaGroup.get "Diagnostics" w1) = Ret (Some a) /\
     (forall F, fst (MetaGroup.hasField (Some a) F w1) = Ret false) /\
     fst (MetaGroup.getFieldList (Some a) w1) = Ret ∅ /\
     ErrLog w1 = ErrLog w_populated) /\
  (fst (MetaGroup.has "Diagnostics" w_populated) = Ret true ->
   MetaGroup.create "Diagnostics" w_populated
   = (Ret None, add_log (GroupAlreadyExists "Diagnostics") w_populated)).
Proof. exact (group_create_then_get w_populated "Diagnostics"). Defined.

Lemma addField_registered_then_getField_witness :
  fst (MetaData.has "Temperature" w_populated) = Ret true /\
  is_Some (GroupStore w_populated !! 2%positive) /\
  exists w1,
    MetaGroup.addField (Some 2%positive) "Temperature" w_populated
    = (Ret 0, w1) /\
    ErrLog w1 = ErrLog w_populated /\
    fst (MetaGroup.hasField (Some 2%positive) "Temperature" w1) = Ret true /\
    MetaGroup.getField (Some 2%positive) "Temperature" w1
    = MetaData.get "Temperature" w1 /\
    fst (MetaData.get "Temperature" w1)
    = fst (MetaData.get "Temperature" w_populated).
Proof.
  assert (H1 : fst (MetaData.has "Temperature" w_populated) = Ret true)
    by by_compute.
  assert (H2 : is_Some (GroupStore w_populated !! 2%positive))
    by (eexists; by_compute).
  split; [exact H1|]. split; [exact H2|].
  exact (addField_registered_then_getField w_populated 2 "Temperature" H1 H2).
Defined.

Lemma addField_of_member_changes_nothing_witness :
  fst (MetaGroup.hasField (Some 1%positive) "Temperature" w_populated)
  = Ret true /\
  exists r w1,
    MetaGroup.addField (Some 1%positive) "Temperature" w_populated
    = (Ret r, w1) /\
    all_but_log w1 = all_but_log w_populated /\
    (r = 0 /\ fst (MetaData.has "Temperature" w_populated) = Ret true /\
     w1 = w_populated
     \/ r = -2 /\ fst (MetaData.has "Temperature" w_populated) = Ret false).
Proof.
  assert (H : fst (MetaGroup.hasField (Some 1%positive) "Temperature"
                     w_populated) = Ret true) by by_compute.
  split; [exact H|].
  exact (addField_of_member_changes_nothing w_populated 1 "Temperature" H).
Defined.

Lemma removeField_result_witness :
  GroupStore w_populated !! 1%positive
  = Some (mkGroup "A" {["Temperature"]}) /\
  exists r w1,
    MetaGroup.removeField (Some 1%positive) "Temperature" w_populated
    = (Ret r, w1) /\
    (r = 0 /\ ("Temperature" ∈ ({["Temperature"]} : gset string)) /\
     ErrLog w1 = ErrLog w_populated /\
     (forall F', fst (MetaGroup.hasField (Some 1%positive) F' w1)
                 = Ret (bool_decide
                          ((F' ∈ ({["Temperature"]} : gset string))
                           /\ F' <> "Temperature")))
     \/
     r = -1 /\ ("Temperature" ∉ ({["Temperature"]} : gset string)) /\
     w1 = add_log (GroupRemoveNotMember "Temperature" "A") w_populated).
Proof.
  assert (H : GroupStore w_populated !! 1%positive
              = Some (mkGroup "A" {["Temperature"]})) by by_compute.
  split; [exact H|].
  exact (removeField_result w_populated 1 _ "Temperature" H).
Defined.

Lemma getFieldList_is_the_member_set_witness :
  GroupStore w_populated !! 1%positive
  = Some (mkGroup "A" {["Temperature"]}) /\
  exists List_,
    MetaGroup.getFieldList (Some 1%positive) w_populated
    = (Ret List_, w_populated) /\
    List_ = {["Temperature"]} /\
    (forall F, F ∈ List_ <->
               fst (MetaGroup.hasField (Some 1%positive) F w_populated)
               = Ret true).
Proof.
  assert (H : GroupStore w_populated !! 1%positive
              = Some (mkGroup "A" {["Temperature"]})) by by_compute.
  split; [exact H|].
  exact (getFieldList_is_the_member_set w_populated 1 _ H).
Defined.

Lemma members_of_other_groups_untouched_witness :
  Some 2%positive <> Some 1%positive /\
  GroupStore (snd (MetaGroup.addField (Some 2%positive) "code" w_populated))
    !! 1%positive = GroupStore w_populated !! 1%positive /\
  GroupStore (snd (MetaGroup.removeField (Some 2%positive) "code"
                     w_populated)) !! 1%positive
    = GroupStore w_populated !! 1%positive /\
  AllGroups (snd (MetaGroup.addField (Some 2%positive) "code" w_populated))
    = AllGroups w_populated /\
  AllGroups (snd (MetaGroup.removeField (Some 2%positive) "code"
                    w_populated)) = AllGroups w_populated.
Proof.
  assert (H : Some 2%positive <> Some 1%positive) by discriminate.
  split; [exact H|].
  exact (members_of_other_groups_untouched w_populated (Some 2%positive)
           "code" 1 H).
Defined.

Lemma registerFields_dimension_names_witness :
  fst (MetaData.has "FluxLayerThickEdge" w_populated) = Ret false /\
  registerFields_DimNames "Mesh2" =
    [ "NEdges" ++ (if String.eqb "Mesh2" "Default" then "" else "Mesh2");
      "NVertLevels" ] /\
  exists a w1,
    MetaData.create_array "FluxLayerThickEdge" "layer thickness" "m" ""
      (AnyI4 0) (AnyR8 (S754_infinity false)) (AnyR8 (S754_zero true))
      registerFields_NDims (registerFields_DimNames "Mesh2") w_populated
      = (Ret (Some a), w1) /\
    MetaData.getDimNames (Some a) [] w1 =
      (Ret (0, registerFields_DimNames "Mesh2"), w1).
Proof.
  assert (H : fst (MetaData.has "FluxLayerThickEdge" w_populated) = Ret false)
    by by_compute.
  split; [exact H|].
  exact (registerFields_dimension_names w_populated "Mesh2"
           "FluxLayerThickEdge" "layer thickness" "m" ""
           (AnyI4 0) (AnyR8 (S754_infinity false)) (AnyR8 (S754_zero true))
           [] H).
Defined.

(** X27: a name that was added to a group before its field existed
    (status -2) resolves as soon as the field is created: [getField] then
    returns the new record. *)
Theorem member_added_early_resolves_after_create (w : World) (G : positive)
        (F : string) :
  fst (MetaData.has F w) = Ret false ->
  is_Some (GroupStore w !! G) ->
  exists w1 a w2,
    MetaGroup.addField (Some G) F w = (Ret (-2), w1) /\
    fst (MetaGroup.getField (Some G) F w1) = Ret None /\
    MetaData.create F w1 = (Ret (Some a), w2) /\
    fst (MetaGroup.getField (Some G) F w2) = Ret (Some a).
Proof.
  intros H [g HG]. apply has_false_inv in H.
  set (g1 := mkGroup (GrpName g) ({[F]} ∪ Fields g)).
  set (w1 := set_GroupStore (<[G := g1]> (GroupStore w))
               (add_log (GroupAddUndefinedField F (GrpName g)) w)).
  assert (Hadd : MetaGroup.addField (Some G) F w = (Ret (-2), w1)).
  { unfold MetaGroup.addField, MetaData.has. cpp_simpl.
    rewrite (proj2 (map_contains_false _ _) H). wsimpl.
    rewrite HG. wsimpl. rewrite HG. reflexivity. }
  assert (HG1 : GroupStore w1 !! G = Some g1) by apply lookup_insert_eq.
  assert (Hin : F ∈ Fields g1).
  { unfold g1. cbn [Fields]. apply elem_of_union. left.
    apply elem_of_singleton. reflexivity. }
  assert (HF1 : AllFields w1 !! F = None) by exact H.
  eexists w1, _, _. split; [exact Hadd|].
  split.
  { rewrite (getField_member w1 G g1 F HG1 Hin).
    rewrite (MetaData_get_missing w1 F HF1). reflexivity. }
  split; [apply (MetaData_create_new w1 F HF1)|].
  erewrite getField_member; [| wsimpl; exact HG1 | exact Hin].
  erewrite MetaData_get_found by (wsimpl; apply lookup_insert_eq).
  reflexivity.
Qed.

Lemma member_added_early_resolves_after_create_witness :
  fst (MetaData.has "Salinity" w_populated) = Ret false /\
  is_Some (GroupStore w_populated !! 2%positive) /\
  exists w1 a w2,
    MetaGroup.addField (Some 2%positive) "Salinity" w_populated
    = (Ret (-2), w1) /\
    fst (MetaGroup.getField (Some 2%positive) "Salinity" w1) = Ret None /\
    MetaData.create "Salinity" w1 = (Ret (Some a), w2) /\
    fst (MetaGroup.getField (Some 2%positive) "Salinity" w2) = Ret (Some a).
Proof.
  assert (H1 : fst (MetaData.has "Salinity" w_populated) = Ret false)
    by by_compute.
  assert (H2 : is_Some (GroupStore w_populated !! 2%positive))
    by (eexists; by_compute).
  split; [exact H1|]. split; [exact H2|].
  exact (member_added_early_resolves_after_create w_populated 2 "Salinity"
           H1 H2).
Defined.
